(** * The OANDA streaming API of vnpy: a shallow embedding

    Source: [src/vnpy/gateway/oanda/oanda_stream_api.py], class
    [OandaStreamApi].  The handlers of the class are embedded as functions of
    a state-and-exception monad over the fields of the object, the order
    store of the gateway and the chronological list of calls the handlers
    make outwards (host callbacks, log lines, streaming requests, threads).
    [datetime.now()] is an input of every handler that reads it. *)

From Stdlib Require Import ZArith Floats.PrimFloat Floats.SpecFloat Floats.FloatOps.
From Stdlib Require Import Ascii String.
From stdpp Require Import gmap strings list.

Local Open Scope Z_scope.
Set Warnings "-register-all,-inexact-float".

(** ** Python values *)

(** [datetime] and [timedelta] count microseconds, the resolution of
    Python's classes; subtraction of two datetimes is exact. *)
Abbreviation datetime := Z (only parsing).
Abbreviation timedelta := Z (only parsing).

Definition timedelta_seconds (seconds : Z) : timedelta := seconds * 1000000.

(** The values a decoded JSON message is made of, and the [datetime] objects
    the parsing helpers return. *)
Inductive pyval : Type :=
  | PNone
  | PBool (b : bool)
  | PInt (z : Z)
  | PFloat (f : float)
  | PStr (s : string)
  | PList (l : list pyval)
  | PDict (d : list (string * pyval))
  | PDatetime (t : datetime).

(** A decoded JSON object: string keys, first binding wins. *)
Abbreviation dict := (list (string * pyval)) (only parsing).

Inductive exc : Type :=
  | KeyError
  | IndexError
  | TypeError
  | AttributeError
  | NameError
  | ZeroDivisionError
  | ValueError
  | OverflowError.

Inductive result (A : Type) : Type :=
  | Ok (a : A)
  | Raise (e : exc).
Arguments Ok {A} a.
Arguments Raise {A} e.

Definition is_raise {A} (r : result A) : bool :=
  match r with Ok _ => false | Raise _ => true end.

(** ** Enumerations and objects of vnpy.trader *)

Inductive Exchange := OANDA | other_exchange (name : string).
Inductive Status := SUBMITTING | NOTTRADED | PARTTRADED | ALLTRADED | CANCELLED | REJECTED.
Inductive Direction := LONG | SHORT | NET.
Inductive Offset := NONE | OPEN | CLOSE | CLOSETODAY | CLOSEYESTERDAY.

Record SubscribeRequest := {
  req_symbol : string;
  req_exchange : Exchange;
}.

(** [copy(req)]: a shallow copy of an object whose fields are immutable
    values is an equal record. *)
Definition copy (req : SubscribeRequest) : SubscribeRequest :=
  {| req_symbol := req_symbol req; req_exchange := req_exchange req |}.

(** The fields of [OrderData] this module reads or writes. *)
Record OrderData := {
  order_symbol : string;
  order_direction : Direction;
  order_volume : float;
  order_traded : float;
  order_status : Status;
  order_time : pyval;
}.

Record TickData := {
  tick_gateway_name : string;
  tick_symbol : pyval;
  tick_exchange : Exchange;
  tick_datetime : pyval;
  tick_name : pyval;
  tick_last_price : Z;
  tick_bid_price_1 : float;
  tick_bid_volume_1 : pyval;
  tick_ask_price_1 : float;
  tick_ask_volume_1 : pyval;
  tick_volume : Z;
}.

Record TradeData := {
  trade_gateway_name : string;
  trade_symbol : string;
  trade_exchange : Exchange;
  trade_orderid : pyval;
  trade_tradeid : pyval;
  trade_direction : Direction;
  trade_offset : Offset;
  trade_price : float;
  trade_volume : float;
  trade_time : pyval;
}.

(** ** Exceptions as objects

    An exception object carries the classes of its type, most specific first
    ([type(e).__mro__], by qualified name) and its [args]; an argument is
    another exception object or any other value. *)
Inductive exn : Type :=
  | Exn (mro : list string) (args : list arg)
with arg : Type :=
  | ArgExn (e : exn)
  | ArgVal (v : pyval).

Definition exn_mro (e : exn) : list string := match e with Exn mro _ => mro end.
Definition exn_args (e : exn) : list arg := match e with Exn _ args => args end.

Definition string_mem (x : string) (l : list string) : bool :=
  existsb (String.eqb x) l.

(** [isinstance(e, cls)] for an exception object. *)
Definition isinstance (e : exn) (cls : string) : bool := string_mem cls (exn_mro e).

(** [isinstance(arg, Exception)] for an element of [e.args]. *)
Definition arg_is_Exception (a : arg) : bool :=
  match a with
  | ArgExn e => isinstance e "Exception"
  | ArgVal _ => false
  end.

(** ** Requests, callables and outward calls *)

(** The two callables the class builds with [partial]:
    [partial(self.subscribe, copy(req))] and
    [partial(self.subscribe_transaction)]. *)
Inductive callable :=
  | partial_subscribe (req : SubscribeRequest)
  | partial_subscribe_transaction.

Inductive message_callback :=
  | cb_on_price (symbol : string)
  | cb_on_transaction.

Inductive connected_callback :=
  | cb_start_connection_checker (re_subscribe : callable) (req : SubscribeRequest)
  | cb_on_subscribed_transaction.

Inductive error_callback :=
  | cb_on_streaming_error (re_subscribe : callable).

(** The arguments of [add_streaming_request]. *)
Record Request := {
  request_method : string;
  request_path : string;
  request_callback : message_callback;
  request_on_connected : connected_callback;
  request_on_error : error_callback;
  request_headers : list (string * string);
}.

Abbreviation loc := positive (only parsing).

(** What a handler does outwards, in the order it does it. *)
Inductive effect : Type :=
  | write_log (msg : string)
  | write_log_delta (msg : string) (delta : timedelta)
  | print (v : pyval)
  | gateway_on_tick (tick : TickData)
  | gateway_on_trade (trade : TradeData)
  | gateway_on_order (order : loc)
  | add_streaming_request (r : Request)
  | thread_start (re_subscribe : callable) (req : SubscribeRequest)
  | time_sleep (seconds : Z)
  | super_on_error (exception_type : string) (exception_value : exn).

(** ** The state *)

(** The gateway's order store: [orders] maps an order id to an [OrderData]
    object, [heap] gives the current fields of every object, so that two ids
    bound to one object see each other's updates. *)
Record gateway := {
  orders : gmap string loc;
  heap : loc -> OrderData;
}.

(** The fields of [OandaStreamApi] set in [__init__], the gateway and the
    outward calls made so far.  The two dictionaries are given by their
    entries under string keys, the only ones the module looks up. *)
Record world := {
  fully_initialized : bool;
  latest_stream_time : gmap string datetime;
  trans_latest_stream_time : gmap string datetime;
  after_subscribe : bool;
  already_init_check : bool;
  gw : gateway;
  trace : list effect;
}.

Definition init_world (g : gateway) : world :=
  {| fully_initialized := false;
     latest_stream_time := ∅;
     trans_latest_stream_time := ∅;
     after_subscribe := false;
     already_init_check := false;
     gw := g;
     trace := [] |}.

Definition set_fully_initialized (b : bool) (w : world) : world :=
  {| fully_initialized := b;
     latest_stream_time := latest_stream_time w;
     trans_latest_stream_time := trans_latest_stream_time w;
     after_subscribe := after_subscribe w;
     already_init_check := already_init_check w;
     gw := gw w;
     trace := trace w |}.

Definition set_latest_stream_time (m : gmap string datetime) (w : world) : world :=
  {| fully_initialized := fully_initialized w;
     latest_stream_time := m;
     trans_latest_stream_time := trans_latest_stream_time w;
     after_subscribe := after_subscribe w;
     already_init_check := already_init_check w;
     gw := gw w;
     trace := trace w |}.

Definition set_trans_latest_stream_time (m : gmap string datetime) (w : world) : world :=
  {| fully_initialized := fully_initialized w;
     latest_stream_time := latest_stream_time w;
     trans_latest_stream_time := m;
     after_subscribe := after_subscribe w;
     already_init_check := already_init_check w;
     gw := gw w;
     trace := trace w |}.

Definition set_after_subscribe (b : bool) (w : world) : world :=
  {| fully_initialized := fully_initialized w;
     latest_stream_time := latest_stream_time w;
     trans_latest_stream_time := trans_latest_stream_time w;
     after_subscribe := b;
     already_init_check := already_init_check w;
     gw := gw w;
     trace := trace w |}.

Definition set_already_init_check (b : bool) (w : world) : world :=
  {| fully_initialized := fully_initialized w;
     latest_stream_time := latest_stream_time w;
     trans_latest_stream_time := trans_latest_stream_time w;
     after_subscribe := after_subscribe w;
     already_init_check := b;
     gw := gw w;
     trace := trace w |}.

Definition set_gw (g : gateway) (w : world) : world :=
  {| fully_initialized := fully_initialized w;
     latest_stream_time := latest_stream_time w;
     trans_latest_stream_time := trans_latest_stream_time w;
     after_subscribe := after_subscribe w;
     already_init_check := already_init_check w;
     gw := g;
     trace := trace w |}.

Definition set_trace (t : list effect) (w : world) : world :=
  {| fully_initialized := fully_initialized w;
     latest_stream_time := latest_stream_time w;
     trans_latest_stream_time := trans_latest_stream_time w;
     after_subscribe := after_subscribe w;
     already_init_check := already_init_check w;
     gw := gw w;
     trace := t |}.

(** ** The monad: state that survives a raised exception *)

Definition M (A : Type) : Type := world -> result A * world.

Definition ret {A} (a : A) : M A := fun w => (Ok a, w).

Definition bind {A B} (c : M A) (k : A -> M B) : M B :=
  fun w => match c w with
           | (Ok a, w') => k a w'
           | (Raise e, w') => (Raise e, w')
           end.

Definition raise {A} (e : exc) : M A := fun w => (Raise e, w).

Definition lift {A} (r : result A) : M A := fun w => (r, w).

Definition gets {A} (f : world -> A) : M A := fun w => (Ok (f w), w).

Definition modify (f : world -> world) : M unit := fun w => (Ok tt, f w).

Definition emit (e : effect) : M unit :=
  modify (fun w => set_trace (trace w ++ [e]) w).

Notation "'let*' x ':=' c 'in' k" := (bind c (fun x => k))
  (at level 10, x name, c at level 100, k at level 200).
Notation "'run' c 'in' k" := (bind c (fun _ => k))
  (at level 10, c at level 100, k at level 200).

(** ** Builtin operations of the Python runtime *)

(** [d[key]] on a decoded JSON object. *)
Fixpoint dict_lookup (d : dict) (key : string) : option pyval :=
  match d with
  | [] => None
  | (k, v) :: d' => if String.eqb k key then Some v else dict_lookup d' key
  end.

Definition dict_getitem (d : dict) (key : string) : M pyval :=
  match dict_lookup d key with
  | Some v => ret v
  | None => raise KeyError
  end.

(** [d.get(key, None)]. *)
Definition dict_get (d : dict) (key : string) : pyval :=
  match dict_lookup d key with
  | Some v => v
  | None => PNone
  end.

Definition is_None (v : pyval) : bool :=
  match v with PNone => true | _ => false end.

(** [v == s] for a string literal [s]: only an equal string is equal. *)
Definition eq_str (v : pyval) (s : string) : bool :=
  match v with PStr s' => String.eqb s' s | _ => false end.

(** Lists and dictionaries cannot be hashed; every other value can. *)
Definition hashable (v : pyval) : bool :=
  match v with PList _ | PDict _ => false | _ => true end.

Fixpoint string_nth (s : string) (n : nat) : option string :=
  match s, n with
  | EmptyString, _ => None
  | String a _, O => Some (String a EmptyString)
  | String _ s', S n' => string_nth s' n'
  end.

(** [v[i]] for a literal index [i >= 0]. *)
Definition getitem_int (v : pyval) (i : nat) : M pyval :=
  match v with
  | PList l => match l !! i with Some x => ret x | None => raise IndexError end
  | PStr s => match string_nth s i with Some c => ret (PStr c) | None => raise IndexError end
  | PDict _ => raise KeyError
  | _ => raise TypeError
  end.

(** [v[key]] for a string literal [key]. *)
Definition getitem_str (v : pyval) (key : string) : M pyval :=
  match v with
  | PDict d => dict_getitem d key
  | _ => raise TypeError
  end.

(** [s.split(sep)] for a one-character separator. *)
Fixpoint str_split (sep : Ascii.ascii) (s : string) : list string :=
  match s with
  | EmptyString => [EmptyString]
  | String a s' =>
      if Ascii.eqb a sep then EmptyString :: str_split sep s'
      else match str_split sep s' with
           | p :: ps => String a p :: ps
           | [] => [String a EmptyString]
           end
  end.

(** [v.split(".")]: only strings have the method. *)
Definition split_dot (v : pyval) : M (list string) :=
  match v with
  | PStr s => ret (str_split "."%char s)
  | _ => raise AttributeError
  end.

Definition list_getitem {A} (l : list A) (i : nat) : M A :=
  match l !! i with Some x => ret x | None => raise IndexError end.

Definition len (s : string) : Z := Z.of_nat (String.length s).

(** [float(z)] for an integer: the nearest binary64 value, ties to even;
    [OverflowError] beyond the range. *)
Definition float_of_int (z : Z) : result float :=
  match binary_normalize prec emax z 0 false with
  | S754_infinity _ => Raise OverflowError
  | sf => Ok (SF2Prim sf)
  end.

(** [x / z] for a float and an integer. *)
Definition float_truediv_int (x : float) (z : Z) : M float :=
  if Z.eqb z 0 then raise ZeroDivisionError
  else let* y := lift (float_of_int z) in ret (x / y)%float.

(** [x * z] for a float and an integer. *)
Definition float_mul_int (x : float) (z : Z) : M float :=
  let* y := lift (float_of_int z) in ret (x * y)%float.

(** [round(x)] with one argument: the nearest integer, ties to even. *)
Definition round_half_even (m : positive) (e : Z) : Z :=
  if 0 <=? e then Zpos m * 2 ^ e
  else
    let d := 2 ^ (- e) in
    let q := Zpos m / d in
    let r := Zpos m mod d in
    if 2 * r <? d then q
    else if d <? 2 * r then q + 1
    else if Z.even q then q else q + 1.

Definition py_round (x : float) : M Z :=
  match Prim2SF x with
  | S754_zero _ => ret 0
  | S754_finite s m e => ret (if s then - round_half_even m e else round_half_even m e)
  | S754_infinity _ => raise OverflowError
  | S754_nan => raise ValueError
  end.

(** [tuple / int]: the operands support no division. *)
Definition tuple_truediv (t : float * Z) (z : Z) : M float := raise TypeError.

(** ** Names in scope of [on_price] *)

Definition module_globals : list string :=
  ["time"; "copy"; "dataclass"; "partial"; "IncompleteRead"; "RemoteDisconnected";
   "Callable"; "TYPE_CHECKING"; "Type"; "datetime"; "timedelta"; "Thread";
   "ProtocolError"; "ConnectTimeout"; "ReadTimeout"; "Request"; "Exchange";
   "Interval"; "Offset"; "Status"; "OrderData"; "SubscribeRequest"; "TickData";
   "TradeData"; "OandaApiBase"; "parse_datetime"; "parse_time"; "_"; "HOST";
   "TEST_HOST"; "PRICE_TICKS"; "HistoryDataNextInfo"; "RequestFailedException";
   "OandaStreamApi";
   "__name__"; "__doc__"; "__package__"; "__loader__"; "__spec__"; "__file__";
   "__cached__"; "__builtins__"]%string.

Definition on_price_locals : list string :=
  ["self"; "symbol"; "data"; "request"; "type_"; "bid"; "ask"; "float_point";
   "round_add"; "tick"]%string.

Definition builtins : list string :=
  ["abs"; "aiter"; "all"; "anext"; "any"; "ascii"; "bin"; "bool"; "breakpoint";
   "bytearray"; "bytes"; "callable"; "chr"; "classmethod"; "compile"; "complex";
   "copyright"; "credits"; "delattr"; "dict"; "dir"; "divmod"; "enumerate";
   "eval"; "exec"; "exit"; "filter"; "float"; "format"; "frozenset"; "getattr";
   "globals"; "hasattr"; "hash"; "help"; "hex"; "id"; "input"; "int";
   "isinstance"; "issubclass"; "iter"; "len"; "license"; "list"; "locals";
   "map"; "max"; "memoryview"; "min"; "next"; "object"; "oct"; "open"; "ord";
   "pow"; "print"; "property"; "quit"; "range"; "repr"; "reversed"; "round";
   "set"; "setattr"; "slice"; "sorted"; "staticmethod"; "str"; "sum"; "super";
   "tuple"; "type"; "vars"; "zip"; "__import__"; "__build_class__"; "__debug__";
   "None"; "True"; "False"; "Ellipsis"; "NotImplemented";
   "BaseException"; "BaseExceptionGroup"; "Exception"; "ExceptionGroup";
   "GeneratorExit"; "KeyboardInterrupt"; "SystemExit"; "ArithmeticError";
   "AssertionError"; "AttributeError"; "BlockingIOError"; "BrokenPipeError";
   "BufferError"; "BytesWarning"; "ChildProcessError"; "ConnectionAbortedError";
   "ConnectionError"; "ConnectionRefusedError"; "ConnectionResetError";
   "DeprecationWarning"; "EOFError"; "EncodingWarning"; "EnvironmentError";
   "FileExistsError"; "FileNotFoundError"; "FloatingPointError"; "FutureWarning";
   "IOError"; "ImportError"; "ImportWarning"; "IndentationError"; "IndexError";
   "InterruptedError"; "IsADirectoryError"; "KeyError"; "LookupError";
   "MemoryError"; "ModuleNotFoundError"; "NameError"; "NotADirectoryError";
   "NotImplementedError"; "OSError"; "OverflowError"; "PendingDeprecationWarning";
   "PermissionError"; "ProcessLookupError"; "RecursionError"; "ReferenceError";
   "ResourceWarning"; "RuntimeError"; "RuntimeWarning"; "StopAsyncIteration";
   "StopIteration"; "SyntaxError"; "SyntaxWarning"; "SystemError"; "TabError";
   "TimeoutError"; "TypeError"; "UnboundLocalError"; "UnicodeDecodeError";
   "UnicodeEncodeError"; "UnicodeError"; "UnicodeTranslateError";
   "UnicodeWarning"; "UserWarning"; "ValueError"; "Warning";
   "ZeroDivisionError"]%string.

(** Evaluating a name inside [on_price]: local, then module, then builtin
    scope; a name bound in none of them raises [NameError]. *)
Definition load_name (x : string) : M unit :=
  if string_mem x on_price_locals || string_mem x module_globals || string_mem x builtins
  then ret tt
  else raise NameError.

(** The table of tick sizes of the module, lines 27-32; no function of the
    module reads it. *)
Definition PRICE_TICKS : list (string * float) :=
  [("BTCUSD", 0.5); ("ETHUSD", 0.05); ("EOSUSD", 0.001); ("XRPUSD", 0.0001)]%float%string.

(** ** What the module takes from outside

    The account and gateway names, the runtime's conversion of a string to a
    float ([None]: the string is no number, [ValueError]), the two parsers of
    [oanda_common] and [parse_order_data] of the gateway, which works on the
    gateway's own state. *)
Record Env := {
  account_id : string;
  gateway_name : string;
  float_of_str : string -> option float;
  parse_datetime : pyval -> result pyval;
  parse_time : pyval -> result pyval;
  parse_order_data : dict -> Status -> string -> gateway -> result loc * gateway;
}.

Inductive transaction_callback :=
  | the_on_order_filled
  | the_on_order
  | the_on_order_canceled.

(** The dispatch table built in [__init__], lines 61-69. *)
Definition _transaction_callbacks : list (string * transaction_callback) :=
  [("ORDER_FILL", the_on_order_filled);
   ("MARKET_ORDER", the_on_order);
   ("LIMIT_ORDER", the_on_order);
   ("STOP_ORDER", the_on_order);
   ("ORDER_CANCEL", the_on_order_canceled)]%string.

Fixpoint table_lookup {A} (t : list (string * A)) (key : string) : option A :=
  match t with
  | [] => None
  | (k, v) :: t' => if String.eqb k key then Some v else table_lookup t' key
  end.

(** [self._transaction_callbacks.get(type_, None)]: the key is hashed first. *)
Definition _transaction_callbacks_get (type_ : pyval) : M (option transaction_callback) :=
  match type_ with
  | PStr s => ret (table_lookup _transaction_callbacks s)
  | PList _ | PDict _ => raise TypeError
  | _ => ret None
  end.

(** The exception classes of line 195, by qualified name. *)
Definition known_error_types : list string :=
  ["urllib3.exceptions.ProtocolError";
   "http.client.IncompleteRead";
   "http.client.RemoteDisconnected";
   "requests.exceptions.ConnectTimeout";
   "requests.exceptions.ReadTimeout"]%string.

(** [has_error], lines 175-182. *)
Fixpoint has_error (target_type : string) (e : exn) : bool :=
  if isinstance e target_type then true
  else
    match e with
    | Exn _ args =>
        (fix for_arg (l : list arg) : bool :=
           match l with
           | [] => false
           | a :: l' =>
               if arg_is_Exception a
                  && match a with ArgExn e' => has_error target_type e' | ArgVal _ => false end
               then true
               else for_arg l'
           end) args
    end.

Section Api.

Variable env : Env.

(** [float(v)]. *)
Definition py_float (v : pyval) : result float :=
  match v with
  | PStr s => match float_of_str env s with Some f => Ok f | None => Raise ValueError end
  | PInt z => float_of_int z
  | PFloat f => Ok f
  | PBool b => Ok (if b then 1 else 0)%float
  | _ => Raise TypeError
  end.

(** [self.gateway.orders[order_id]]: the ids in the store are strings. *)
Definition orders_getitem (order_id : pyval) : M loc :=
  match order_id with
  | PStr s =>
      let* os := gets (fun w => orders (gw w)) in
      match os !! s with Some l => ret l | None => raise KeyError end
  | PList _ | PDict _ => raise TypeError
  | _ => raise KeyError
  end.

(** Assignment to an attribute of an order object. *)
Definition order_setattr (order : loc) (f : OrderData -> OrderData) : M unit :=
  modify (fun w =>
    set_gw {| orders := orders (gw w);
              heap := fun l => if Pos.eqb l order then f (heap (gw w) l) else heap (gw w) l |} w).

Definition order_getattr {A} (order : loc) (f : OrderData -> A) : M A :=
  gets (fun w => f (heap (gw w) order)).

(** [self.latest_stream_time[key] = now].  An unhashable key raises; a
    hashable key that is no string makes an entry outside the string keys. *)
Definition latest_stream_time_setitem (key : pyval) (now : datetime) : M unit :=
  match key with
  | PStr s => modify (fun w => set_latest_stream_time (<[s := now]> (latest_stream_time w)) w)
  | PList _ | PDict _ => raise TypeError
  | _ => ret tt
  end.

Definition trans_latest_stream_time_setitem (now : datetime) : M unit :=
  modify (fun w =>
    set_trans_latest_stream_time (<[account_id env := now]> (trans_latest_stream_time w)) w).

(** *** subscribe and subscribe_transaction, lines 93-106 and 210-220 *)

Definition subscribe_request (req : SubscribeRequest) : Request :=
  {| request_method := "GET";
     request_path := "/v3/accounts/" +:+ account_id env
                     +:+ "/pricing/stream?instruments=" +:+ req_symbol req;
     request_callback := cb_on_price (req_symbol req);
     request_on_connected :=
       cb_start_connection_checker (partial_subscribe (copy req)) (copy req);
     request_on_error := cb_on_streaming_error (partial_subscribe (copy req));
     request_headers := [("Accept-Encoding", "gzip, deflate")]%string |}.

Definition subscribe (req : SubscribeRequest) : M unit :=
  emit (add_streaming_request (subscribe_request req)).

Definition transaction_request : Request :=
  {| request_method := "GET";
     request_path := "/v3/accounts/" +:+ account_id env +:+ "/transactions/stream";
     request_callback := cb_on_transaction;
     request_on_connected := cb_on_subscribed_transaction;
     request_on_error := cb_on_streaming_error partial_subscribe_transaction;
     request_headers := [("Accept-Encoding", "gzip, deflate")]%string |}.

Definition subscribe_transaction : M unit :=
  run emit (write_log ("subscribe for transaction for account " +:+ account_id env)) in
  emit (add_streaming_request transaction_request).

(** Calling one of the two partial objects. *)
Definition call (f : callable) : M unit :=
  match f with
  | partial_subscribe req => subscribe req
  | partial_subscribe_transaction => subscribe_transaction
  end.

(** *** _start_connection_checker, lines 108-124 *)

Definition _start_connection_checker
    (re_subscribe : callable) (req : SubscribeRequest) (now : datetime) : M unit :=
  let* checked := gets already_init_check in
  if negb checked then
    run emit (write_log "stream connection checker start in sub") in
    run modify (set_already_init_check true) in
    run modify (set_after_subscribe true) in
    run latest_stream_time_setitem (PStr (req_symbol req)) now in
    run emit (thread_start re_subscribe req) in
    let* tl := gets trans_latest_stream_time in
    if bool_decide (is_Some (tl !! account_id env)) then ret tt
    else subscribe_transaction
  else ret tt.

(** *** connection_checker, lines 126-147 *)

(** What one turn of the loop takes from outside: the three readings of
    [datetime.now()] (lines 130, 132 and 143; the last two are read only when
    the dictionary has no entry) and what the other threads do to the shared
    object while this one sleeps. *)
Record cycle_env := {
  now_130 : datetime;
  now_132 : datetime;
  now_143 : datetime;
  during_sleep : world -> world;
}.

(** Lines 130-138. *)
Definition check_price_stream
    (re_subscribe : callable) (req : SubscribeRequest) (c : cycle_env) : M unit :=
  let now := now_130 c in
  let* lst := gets latest_stream_time in
  let latest := match lst !! req_symbol req with Some t => t | None => now_132 c end in
  let delta := now - latest in
  if timedelta_seconds 10 <? delta then
    run emit (write_log_delta "stream connection checker reconnected due to %ss" delta) in
    call re_subscribe
  else ret tt.

(** Line 140. *)
Definition sleep_1 (c : cycle_env) : M unit :=
  run emit (time_sleep 1) in
  modify (during_sleep c).

(** Lines 142-147; [now] is still the reading of line 130. *)
Definition check_transaction_stream (c : cycle_env) : M unit :=
  let now := now_130 c in
  let* tl := gets trans_latest_stream_time in
  let latest := match tl !! account_id env with Some t => t | None => now_143 c end in
  let delta := now - latest in
  if timedelta_seconds 30 <? delta then
    run emit (write_log_delta
                "transaction stream connection checker reconnected due to %ss" delta) in
    subscribe_transaction
  else ret tt.

(** The body of [while True]. *)
Definition checker_cycle
    (re_subscribe : callable) (req : SubscribeRequest) (c : cycle_env) : M unit :=
  run check_price_stream re_subscribe req c in
  run sleep_1 c in
  check_transaction_stream c.

Fixpoint checker_loop
    (re_subscribe : callable) (req : SubscribeRequest) (cs : list cycle_env) : M unit :=
  match cs with
  | [] => ret tt
  | c :: cs' =>
      run checker_cycle re_subscribe req c in
      checker_loop re_subscribe req cs'
  end.

(** The loop never ends; [connection_checker] runs the turns it is given the
    environment of. *)
Definition connection_checker
    (re_subscribe : callable) (req : SubscribeRequest) (cs : list cycle_env) : M unit :=
  let* started := gets after_subscribe in
  if started then
    run emit (write_log "stream connection checker start") in
    checker_loop re_subscribe req cs
  else ret tt.

(** *** on_price, lines 149-173 *)

(** The [volume] argument, line 170. *)
Definition on_price_volume (bid ask : pyval) : M Z :=
  let* al := getitem_str ask "liquidity" in
  let* fal := lift (py_float al) in
  let* bl := getitem_str bid "liquidity" in
  let* fbl := lift (py_float bl) in
  py_round ((fal + fbl + 0.5) / 2)%float.

(** The [TickData(...)] expression of lines 159-171, keyword arguments in
    the order they are written. *)
Definition on_price_tick
    (symbol : pyval) (data : dict) (bid ask : pyval)
    (float_point : Z) (round_add : float) : M TickData :=
  let* time := dict_getitem data "time" in
  let* dt := lift (parse_datetime env time) in
  let* bp := getitem_str bid "price" in
  let* fb := lift (py_float bp) in
  let* ap := getitem_str ask "price" in
  let* fa := lift (py_float ap) in
  let* half := tuple_truediv ((fb + fa + round_add)%float, float_point) 2 in
  let* last_price := py_round half in
  let* bp1 := getitem_str bid "price" in
  let* bid_price_1 := lift (py_float bp1) in
  let* bid_volume_1 := getitem_str bid "liquidity" in
  let* ap1 := getitem_str ask "price" in
  let* ask_price_1 := lift (py_float ap1) in
  let* ask_volume_1 := getitem_str ask "liquidity" in
  let* volume := on_price_volume bid ask in
  ret {| tick_gateway_name := gateway_name env;
         tick_symbol := symbol;
         tick_exchange := OANDA;
         tick_datetime := dt;
         tick_name := symbol;
         tick_last_price := last_price;
         tick_bid_price_1 := bid_price_1;
         tick_bid_volume_1 := bid_volume_1;
         tick_ask_price_1 := ask_price_1;
         tick_ask_volume_1 := ask_volume_1;
         tick_volume := volume |}.

(** Lines 152-172, the branch of a PRICE message; it returns the rebound
    [symbol].  Line 158 evaluates the names [print] and [s] before anything
    else of the statement. *)
Definition on_price_PRICE (data : dict) : M pyval :=
  let* symbol := dict_getitem data "instrument" in
  let* bids := dict_getitem data "bids" in
  let* bid := getitem_int bids 0 in
  let* asks := dict_getitem data "asks" in
  let* ask := getitem_int asks 0 in
  let* bp := getitem_str bid "price" in
  let* parts := split_dot bp in
  let* digits := list_getitem parts 1 in
  let float_point := len digits in
  let* r1 := float_truediv_int 1.0 float_point in
  let* r2 := float_mul_int r1 10 in
  let* round_add := float_mul_int r2 5 in
  run load_name "print" in
  run load_name "s" in
  let* tick := on_price_tick symbol data bid ask float_point round_add in
  run emit (gateway_on_tick tick) in
  ret symbol.

Definition on_price (symbol : string) (data : dict) (now : datetime) : M unit :=
  let* type_ := dict_getitem data "type" in
  let* symbol' := (if eq_str type_ "PRICE" then on_price_PRICE data
                   else ret (PStr symbol)) in
  latest_stream_time_setitem symbol' now.

(** *** on_streaming_error, lines 184-208 *)

(** The loop of lines 195-199; it stops at the first class found. *)
Fixpoint known_loop (ets : list string) (exception_value : exn) : M bool :=
  match ets with
  | [] => ret false
  | et :: ets' =>
      if has_error et exception_value then
        run emit (write_log "Know ERR") in ret true
      else known_loop ets' exception_value
  end.

Definition on_streaming_error
    (re_subscribe : callable) (exception_type : string) (exception_value : exn) : M unit :=
  run emit (write_log "ERRRRRROOOOOORRRRR") in
  let* known := known_loop known_error_types exception_value in
  if known then call re_subscribe
  else
    run call re_subscribe in
    run emit (write_log "UNKnow ERR") in
    emit (super_on_error exception_type exception_value).

(** *** The transaction stream, lines 222-293 *)

Definition on_subscribed_transaction (now : datetime) : M unit :=
  run modify (set_fully_initialized true) in
  trans_latest_stream_time_setitem now.

Definition on_order (data : dict) : M unit :=
  let* order := (fun w =>
                   let (r, g) := parse_order_data env data NOTTRADED "time" (gw w) in
                   (r, set_gw g w)) in
  emit (gateway_on_order order).

Definition set_order_status (s : Status) (o : OrderData) : OrderData :=
  {| order_symbol := order_symbol o; order_direction := order_direction o;
     order_volume := order_volume o; order_traded := order_traded o;
     order_status := s; order_time := order_time o |}.

Definition set_order_time (t : pyval) (o : OrderData) : OrderData :=
  {| order_symbol := order_symbol o; order_direction := order_direction o;
     order_volume := order_volume o; order_traded := order_traded o;
     order_status := order_status o; order_time := t |}.

Definition set_order_traded (x : float) (o : OrderData) : OrderData :=
  {| order_symbol := order_symbol o; order_direction := order_direction o;
     order_volume := order_volume o; order_traded := x;
     order_status := order_status o; order_time := order_time o |}.

Definition on_order_canceled (data : dict) : M unit :=
  let order_id := dict_get data "clientOrderID" in
  let* order_id := (if is_None order_id then dict_getitem data "id" else ret order_id) in
  let* order := orders_getitem order_id in
  run order_setattr order (set_order_status CANCELLED) in
  let* time := dict_getitem data "time" in
  let* t := lift (parse_time env time) in
  run order_setattr order (set_order_time t) in
  emit (gateway_on_order order).

Definition on_order_filled (data : dict) : M unit :=
  let order_id := dict_get data "clientOrderID" in
  let* order_id := (if is_None order_id then dict_getitem data "orderID" else ret order_id) in
  let* order := orders_getitem order_id in
  let* p := dict_getitem data "price" in
  let* price := lift (py_float p) in
  let* symbol := order_getattr order order_symbol in
  let* direction := order_getattr order order_direction in
  let* volume := order_getattr order order_volume in
  let* time := dict_getitem data "time" in
  let* t := lift (parse_time env time) in
  run emit (gateway_on_trade
              {| trade_gateway_name := gateway_name env;
                 trade_symbol := symbol;
                 trade_exchange := OANDA;
                 trade_orderid := order_id;
                 trade_tradeid := order_id;
                 trade_direction := direction;
                 trade_offset := NONE;
                 trade_price := price;
                 trade_volume := volume;
                 trade_time := t |}) in
  let* volume' := order_getattr order order_volume in
  run order_setattr order (set_order_traded volume') in
  run order_setattr order (set_order_status ALLTRADED) in
  let* time' := dict_getitem data "time" in
  let* t' := lift (parse_time env time') in
  run order_setattr order (set_order_time t') in
  emit (gateway_on_order order).

Definition call_transaction_callback (cb : transaction_callback) (data : dict) : M unit :=
  match cb with
  | the_on_order_filled => on_order_filled data
  | the_on_order => on_order data
  | the_on_order_canceled => on_order_canceled data
  end.

Definition on_transaction (data : dict) (now : datetime) : M unit :=
  let* type_ := dict_getitem data "type" in
  let* callback := _transaction_callbacks_get type_ in
  run match callback with
      | Some cb => call_transaction_callback cb data
      | None => if negb (eq_str type_ "HEARTBEAT") then emit (print type_) else ret tt
      end in
  trans_latest_stream_time_setitem now.

End Api.

(** * Definitions for the statements *)

(** ** The error classifier *)

(** The cause chain in the words of the specification: the error itself, or
    an exception reached through exception arguments, at any depth. *)
Inductive in_cause_chain : exn -> exn -> Prop :=
  | chain_self e : in_cause_chain e e
  | chain_arg e a e' :
      In (ArgExn a) (exn_args e) ->
      isinstance a "Exception" = true ->
      in_cause_chain e' a ->
      in_cause_chain e' e.


(** The value of [known] after the loop of lines 194-199. *)
Definition known (exception_value : exn) : bool :=
  existsb (fun et => has_error et exception_value) known_error_types.

(** Three errors.  A connection error of requests that wraps a protocol error of urllib3
    that wraps a remote disconnect, as a closed stream raises it. *)
Definition remote_disconnect : exn :=
  Exn ["requests.exceptions.ConnectionError"; "requests.exceptions.RequestException";
       "OSError"; "Exception"; "BaseException"; "object"]%string
    [ArgExn (Exn ["urllib3.exceptions.ProtocolError"; "urllib3.exceptions.HTTPError";
                  "Exception"; "BaseException"; "object"]%string
               [ArgVal (PStr "Connection aborted.");
                ArgExn (Exn ["http.client.RemoteDisconnected"; "ConnectionResetError";
                             "ConnectionError"; "OSError"; "http.client.BadStatusLine";
                             "http.client.HTTPException"; "Exception"; "BaseException";
                             "object"]%string
                          [ArgVal (PStr "Remote end closed connection without response")])])].

(** An error of no known kind. *)
Definition value_error : exn :=
  Exn ["ValueError"; "Exception"; "BaseException"; "object"]%string
    [ArgVal (PStr "Expecting value")].

(** A read timeout wrapped in an object that is no instance of [Exception]:
    line 180 does not look inside. *)
Definition wrapped_in_system_exit : exn :=
  Exn ["RuntimeError"; "Exception"; "BaseException"; "object"]%string
    [ArgExn (Exn ["SystemExit"; "BaseException"; "object"]%string
               [ArgExn (Exn ["requests.exceptions.ReadTimeout";
                             "requests.exceptions.Timeout";
                             "requests.exceptions.RequestException"; "OSError";
                             "Exception"; "BaseException"; "object"]%string [])])].

(** ** What a list of outward calls holds *)

(** The streaming requests among a list of outward calls. *)
Fixpoint requests_opened (t : list effect) : list Request :=
  match t with
  | [] => []
  | add_streaming_request r :: t' => r :: requests_opened t'
  | _ :: t' => requests_opened t'
  end.

(** The calls of the generic error handler of the base class. *)
Fixpoint escalations (t : list effect) : list (string * exn) :=
  match t with
  | [] => []
  | super_on_error ty e :: t' => (ty, e) :: escalations t'
  | _ :: t' => escalations t'
  end.

(** The threads the handlers have started. *)
Fixpoint threads_started (t : list effect) : list (callable * SubscribeRequest) :=
  match t with
  | [] => []
  | thread_start f req :: t' => (f, req) :: threads_started t'
  | _ :: t' => threads_started t'
  end.

(** The request one invocation of a callable opens. *)
Definition request_of (env : Env) (f : callable) : Request :=
  match f with
  | partial_subscribe req => subscribe_request env req
  | partial_subscribe_transaction => transaction_request env
  end.

(** The outward calls of one invocation of a callable. *)
Definition call_effects (env : Env) (f : callable) : list effect :=
  match f with
  | partial_subscribe req => [add_streaming_request (subscribe_request env req)]
  | partial_subscribe_transaction =>
      [write_log ("subscribe for transaction for account " +:+ account_id env);
       add_streaming_request (transaction_request env)]
  end.

(** ** The transaction stream *)

(** A discriminant that has an entry in the dispatch table. *)
Definition in_dispatch_table (type_ : pyval) : bool :=
  match type_ with
  | PStr s => match table_lookup _transaction_callbacks s with
              | Some _ => true
              | None => false
              end
  | _ => false
  end.

(** The order id of a fill or cancel transaction in the words of the
    specification: the client-assigned id, or, when no client id is present,
    the id under the fallback key. *)
Definition transaction_order_id (fallback : string) (data : dict) : option pyval :=
  match dict_lookup data "clientOrderID" with
  | Some PNone | None => dict_lookup data fallback
  | Some client_id => Some client_id
  end.

(** The fallback key each of the two handlers reads. *)
Definition fallback_key (type_ : string) : string :=
  if String.eqb type_ "ORDER_FILL" then "orderID" else "id".

(** The fields of an order after its fill. *)
Definition filled (t : pyval) (o : OrderData) : OrderData :=
  {| order_symbol := order_symbol o;
     order_direction := order_direction o;
     order_volume := order_volume o;
     order_traded := order_volume o;
     order_status := ALLTRADED;
     order_time := t |}.

(** The trade a fill reports to the host. *)
Definition fill_trade (env : Env) (order_id : pyval) (o : OrderData)
    (price : float) (t : pyval) : TradeData :=
  {| trade_gateway_name := gateway_name env;
     trade_symbol := order_symbol o;
     trade_exchange := OANDA;
     trade_orderid := order_id;
     trade_tradeid := order_id;
     trade_direction := order_direction o;
     trade_offset := NONE;
     trade_price := price;
     trade_volume := order_volume o;
     trade_time := t |}.

(** ** Computations *)

(** A computation that leaves the state as it found it. *)
Definition stateless {A} (c : M A) : Prop := forall w, snd (c w) = w.

(** A computation that raises from every state, leaving the state as it
    found it. *)
Definition always_raises {A} (c : M A) : Prop :=
  forall w, exists e, c w = (Raise e, w).

(** A computation that writes neither dictionary. *)
Definition keeps_ledgers {A} (c : M A) : Prop :=
  forall w, latest_stream_time (snd (c w)) = latest_stream_time w
            /\ trans_latest_stream_time (snd (c w)) = trans_latest_stream_time w.

(** ** An environment and messages for the examples

    The conversion of plain decimal numerals (one correctly rounded
    division, which is the runtime's result for numerals of at most 15
    digits) and stand-ins for the parsers of [oanda_common] and of the
    gateway. *)

Fixpoint digits_value (s : string) (acc : Z) : option Z :=
  match s with
  | EmptyString => Some acc
  | String a s' =>
      let n := Z.of_nat (nat_of_ascii a) - 48 in
      if (0 <=? n) && (n <=? 9) then digits_value s' (10 * acc + n) else None
  end.

Definition decimal_of_str (s : string) : option float :=
  match str_split "." s with
  | [i] =>
      match i, digits_value i 0 with
      | String _ _, Some z =>
          match float_of_int z with Ok x => Some x | Raise _ => None end
      | _, _ => None
      end
  | [i; d] =>
      match (i +:+ d)%string, digits_value (i +:+ d) 0 with
      | String _ _, Some z =>
          match float_of_int z, float_of_int (10 ^ len d) with
          | Ok x, Ok y => Some (x / y)%float
          | _, _ => None
          end
      | _, _ => None
      end
  | _ => None
  end.

(** The environment of the examples. *)
Definition example_env : Env :=
  {| account_id := "101-004-1234567-001";
     gateway_name := "OANDA";
     float_of_str := decimal_of_str;
     parse_datetime := fun v => match v with
                                | PStr _ => Ok (PDatetime 0)
                                | _ => Raise TypeError
                                end;
     parse_time := fun v => match v with
                            | PStr s => Ok (PStr s)
                            | _ => Raise TypeError
                            end;
     parse_order_data := fun _ _ _ g => (Raise KeyError, g) |}.

(** A resting order of volume 100. *)
Definition resting_order : OrderData :=
  {| order_symbol := "EUR_USD";
     order_direction := LONG;
     order_volume := 100;
     order_traded := 0;
     order_status := NOTTRADED;
     order_time := PNone |}.

(** A gateway holding one resting order of volume 100 under the id abc. *)
Definition example_gateway : gateway :=
  {| orders := {[ "abc"%string := 1%positive ]};
     heap := fun _ => resting_order |}.

(** The object after [__init__]. *)
Definition example_world : world := init_world example_gateway.

(** One level of the book, and a PRICE message with one level a side. *)
Definition price_level (price : string) (liquidity : Z) : pyval :=
  PDict [("price", PStr price); ("liquidity", PInt liquidity)]%string.

Definition price_message (instrument bid ask : string) (bid_liquidity ask_liquidity : Z)
    : dict :=
  [("type", PStr "PRICE");
   ("time", PStr "2019-06-21T08:32:19.123456789Z");
   ("bids", PList [price_level bid bid_liquidity]);
   ("asks", PList [price_level ask ask_liquidity]);
   ("instrument", PStr instrument)]%string.

(** The message of P2 and the message of P7. *)
Definition p2_message : dict := price_message "EUR_USD" "1.23450" "1.23470" 1000000 1000000.
Definition p7_message : dict := price_message "EUR_USD" "1.10000" "1.10020" 10 20.

(** A PRICE message for another instrument than the one subscribed. *)
Definition usd_jpy_price : dict := price_message "USD_JPY" "107.321" "107.335" 10 20.

(** The heartbeat both streams send. *)
Definition heartbeat : dict :=
  [("type", PStr "HEARTBEAT"); ("time", PStr "2019-06-21T08:32:24.000000000Z")]%string.

(** The fill of P8. *)
Definition p8_fill : dict :=
  [("type", PStr "ORDER_FILL"); ("clientOrderID", PStr "abc"); ("orderID", PStr "6357");
   ("price", PStr "1.2345"); ("time", PStr "2019-06-21T08:32:25.000000000Z")]%string.

(** A fill for an order the store does not hold (P6). *)
Definition unknown_fill : dict :=
  [("type", PStr "ORDER_FILL"); ("orderID", PStr "6358");
   ("price", PStr "1.2345"); ("time", PStr "2019-06-21T08:32:26.000000000Z")]%string.

(** ** Sequences of messages *)

(** A message of one of the two streams, as its session hands it over. *)
Inductive message :=
  | price_stream_message (symbol : string) (data : dict)
  | transaction_stream_message (data : dict).

Definition deliver (env : Env) (m : message) (now : datetime) : M unit :=
  match m with
  | price_stream_message symbol data => on_price env symbol data now
  | transaction_stream_message data => on_transaction env data now
  end.

(** The state after a sequence of messages, each with the reading of the
    clock its handler takes; a handler that raises leaves what it did. *)
Fixpoint deliver_all (env : Env) (ms : list (message * datetime)) (w : world) : world :=
  match ms with
  | [] => w
  | (m, now) :: ms' => deliver_all env ms' (snd (deliver env m now w))
  end.

(** The readings of the clock do not go back, starting from [t0]. *)
Fixpoint clock_nondecreasing (t0 : datetime) (ms : list (message * datetime)) : Prop :=
  match ms with
  | [] => True
  | (_, t) :: ms' => t0 <= t /\ clock_nondecreasing t ms'
  end.

(** The last reading of the clock, [t0] when there is no message. *)
Definition last_reading (t0 : datetime) (ms : list (message * datetime)) : datetime :=
  fold_left (fun _ m => snd m) ms t0.

(** No entry of the two dictionaries is later than [t]. *)
Definition ledgers_at_most (t : datetime) (w : world) : Prop :=
  map_Forall (fun _ x => x <= t) (latest_stream_time w)
  /\ map_Forall (fun _ x => x <= t) (trans_latest_stream_time w).

(** An absent entry is before every entry. *)
Definition entry_le (a b : option datetime) : Prop :=
  match a, b with
  | None, _ => True
  | Some x, Some y => x <= y
  | Some _, None => False
  end.

(** What a handler may do to the two dictionaries: leave one as it is, or
    store [now] in it. *)
Definition ledger_step (now : datetime) (w w' : world) : Prop :=
  (latest_stream_time w' = latest_stream_time w
   \/ exists k, latest_stream_time w' = <[k := now]> (latest_stream_time w))
  /\ (trans_latest_stream_time w' = trans_latest_stream_time w
      \/ exists k, trans_latest_stream_time w' = <[k := now]> (trans_latest_stream_time w)).

(** ** The watchdog *)

(** The calls of a turn before its sleep: the rebuild of the price stream
    of [req] when its entry is more than ten seconds behind the reading of
    line 130. *)
Definition price_rebuild (env : Env) (req : SubscribeRequest) (c : cycle_env) (w : world)
    : list effect :=
  let latest := default (now_132 c) (latest_stream_time w !! req_symbol req) in
  if timedelta_seconds 10 <? now_130 c - latest then
    [write_log_delta "stream connection checker reconnected due to %ss" (now_130 c - latest);
     add_streaming_request (subscribe_request env req)]
  else [].

(** The calls of a turn after its sleep: the rebuild of the transaction
    stream when the account's entry is more than thirty seconds behind the
    same reading. *)
Definition transaction_rebuild (env : Env) (c : cycle_env) (w : world) : list effect :=
  let latest := default (now_143 c) (trans_latest_stream_time w !! account_id env) in
  if timedelta_seconds 30 <? now_130 c - latest then
    [write_log_delta "transaction stream connection checker reconnected due to %ss"
       (now_130 c - latest);
     write_log ("subscribe for transaction for account " +:+ account_id env);
     add_streaming_request (transaction_request env)]
  else [].

(** Two subscriptions. *)
Definition eur_usd : SubscribeRequest := {| req_symbol := "EUR_USD"; req_exchange := OANDA |}.
Definition usd_jpy : SubscribeRequest := {| req_symbol := "USD_JPY"; req_exchange := OANDA |}.

(** Two price streams of one account: EUR_USD is subscribed and connects at
    second 0, then the transaction stream, then USD_JPY; USD_JPY has its
    last message at second 1, the two other streams at second 59. *)
Definition two_streams : world :=
  let w1 := snd (subscribe example_env eur_usd example_world) in
  let w2 := snd (_start_connection_checker example_env
                   (partial_subscribe (copy eur_usd)) (copy eur_usd) 0 w1) in
  let w3 := snd (on_subscribed_transaction example_env 0 w2) in
  let w4 := snd (subscribe example_env usd_jpy w3) in
  let w5 := snd (_start_connection_checker example_env
                   (partial_subscribe (copy usd_jpy)) (copy usd_jpy) 0 w4) in
  let w6 := snd (on_price example_env "USD_JPY" heartbeat (timedelta_seconds 1) w5) in
  let w7 := snd (on_price example_env "EUR_USD" heartbeat (timedelta_seconds 59) w6) in
  snd (on_transaction example_env heartbeat (timedelta_seconds 59) w7).

(** A turn of the loop at second 60, with nothing arriving while it sleeps. *)
Definition turn_at_60 : cycle_env :=
  {| now_130 := timedelta_seconds 60;
     now_132 := timedelta_seconds 60;
     now_143 := timedelta_seconds 61;
     during_sleep := fun w => w |}.

(** ** Definitions for the further properties *)

(** [parse_time(data['time'])], as both order handlers evaluate it. *)
Definition time_of (env : Env) (data : dict) : result pyval :=
  match dict_lookup data "time" with
  | Some tv => parse_time env tv
  | None => Raise KeyError
  end.

(** The fields of an order after its cancellation. *)
Definition cancelled (t : pyval) (o : OrderData) : OrderData :=
  {| order_symbol := order_symbol o;
     order_direction := order_direction o;
     order_volume := order_volume o;
     order_traded := order_traded o;
     order_status := CANCELLED;
     order_time := t |}.

(** Two states of an order object with the same symbol, direction and
    volume. *)
Definition same_contract (o o' : OrderData) : Prop :=
  order_symbol o' = order_symbol o
  /\ order_direction o' = order_direction o
  /\ order_volume o' = order_volume o.

(** A computation that binds no id anew, drops none, and leaves every order
    its symbol, direction and volume. *)
Definition keeps_orders {A} (c : M A) : Prop :=
  forall w, orders (gw (snd (c w))) = orders (gw w)
            /\ forall l, same_contract (heap (gw w) l) (heap (gw (snd (c w))) l).

(** The callable a request carries for its error callback. *)
Definition error_callable (r : Request) : callable :=
  match request_on_error r with cb_on_streaming_error f => f end.

(** The connections of price streams, in the order they happen: each with
    the arguments [partial] has bound and the reading of the clock. *)
Fixpoint connect_all (env : Env) (cs : list (callable * SubscribeRequest * datetime))
    (w : world) : world :=
  match cs with
  | [] => w
  | (f, req, now) :: cs' =>
      connect_all env cs' (snd (_start_connection_checker env f req now w))
  end.

(** The number of outward calls that satisfy [p]. *)
Fixpoint count_if (p : effect -> bool) (t : list effect) : nat :=
  match t with
  | [] => O
  | e :: t' => ((if p e then 1 else 0) + count_if p t')%nat
  end.

(** A request for the price stream of [symbol]. *)
Definition is_price_request (symbol : string) (e : effect) : bool :=
  match e with
  | add_streaming_request r =>
      match request_callback r with
      | cb_on_price s => String.eqb s symbol
      | cb_on_transaction => false
      end
  | _ => false
  end.

Definition is_sleep (e : effect) : bool :=
  match e with time_sleep _ => true | _ => false end.

(** A PRICE message of a price stream. *)
Definition is_PRICE (m : message * datetime) : Prop :=
  match fst m with
  | price_stream_message _ data => dict_lookup data "type" = Some (PStr "PRICE")
  | transaction_stream_message _ => False
  end.

(** The state a turn of the watchdog leaves. *)
Definition after_cycle (env : Env) (req : SubscribeRequest) (c : cycle_env) (w : world)
    : world :=
  let w1 := during_sleep c
              (set_trace (trace w ++ price_rebuild env req c w ++ [time_sleep 1]) w) in
  set_trace (trace w1 ++ transaction_rebuild env c w1) w1.

(** A cancel of the order abc; the same without its time; an order
    acknowledgement. *)
Definition cancel_abc : dict :=
  [("type", PStr "ORDER_CANCEL"); ("clientOrderID", PStr "abc"); ("id", PStr "6360");
   ("orderID", PStr "6357"); ("time", PStr "2019-06-21T08:32:27.000000000Z")]%string.

Definition cancel_abc_untimed : dict :=
  [("type", PStr "ORDER_CANCEL"); ("clientOrderID", PStr "abc"); ("id", PStr "6360");
   ("orderID", PStr "6357")]%string.

Definition market_order : dict :=
  [("type", PStr "MARKET_ORDER"); ("id", PStr "6361");
   ("time", PStr "2019-06-21T08:32:28.000000000Z")]%string.

(** Turns of the watchdog at seconds 60 and 61 with nothing arriving. *)
Definition turn_at_61 : cycle_env :=
  {| now_130 := timedelta_seconds 61;
     now_132 := timedelta_seconds 61;
     now_143 := timedelta_seconds 62;
     during_sleep := fun w => w |}.

(** * Properties *)

(** ** Running the monad *)

Lemma bind_ok {A B} (c : M A) (k : A -> M B) w a w' :
  c w = (Ok a, w') -> bind c k w = k a w'.
Proof. intros H. unfold bind. now rewrite H. Qed.

Lemma bind_raise {A B} (c : M A) (k : A -> M B) w e w' :
  c w = (Raise e, w') -> bind c k w = (Raise e, w').
Proof. intros H. unfold bind. now rewrite H. Qed.

Lemma emit_run (e : effect) (w : world) :
  emit e w = (Ok tt, set_trace (trace w ++ [e]) w).
Proof. reflexivity. Qed.

Lemma set_trace_trace (w : world) : set_trace (trace w) w = w.
Proof. now destruct w. Qed.

Lemma set_trace_twice t t' w : set_trace t (set_trace t' w) = set_trace t w.
Proof. reflexivity. Qed.

(** ** The error classifier *)

(** Induction on an exception object, with the hypothesis for every
    exception among its arguments. *)
Lemma exn_nested_ind (P : exn -> Prop) :
  (forall mro args, (forall e, In (ArgExn e) args -> P e) -> P (Exn mro args)) ->
  forall e, P e.
Proof.
  intros step. fix IH 1. intros [mro args]. apply step.
  induction args as [|a args IHargs]; intros e Hin.
  - destruct Hin.
  - destruct Hin as [Heq|Hin].
    + destruct a as [e0|v]; [|discriminate Heq].
      injection Heq as <-. apply IH.
    + exact (IHargs e Hin).
Qed.

Lemma has_error_unfold target mro args :
  has_error target (Exn mro args) =
    isinstance (Exn mro args) target
    || existsb (fun a => arg_is_Exception a
                         && match a with
                            | ArgExn e' => has_error target e'
                            | ArgVal _ => false
                            end) args.
Proof.
  cbn [has_error]. destruct (isinstance (Exn mro args) target); [reflexivity|].
  cbn [orb]. induction args as [|a args IH]; [reflexivity|].
  cbn [existsb]. rewrite <- IH.
  now destruct (arg_is_Exception a && _).
Qed.

Lemma has_error_chain target e :
  has_error target e = true <->
  exists e', in_cause_chain e' e /\ isinstance e' target = true.
Proof.
  induction e as [mro args IH] using exn_nested_ind.
  rewrite has_error_unfold, orb_true_iff, existsb_exists. split.
  - intros [Hhere|(a & Hin & Ha)].
    + exists (Exn mro args). split; [constructor|exact Hhere].
    + apply andb_true_iff in Ha as [Hexc Hrec].
      destruct a as [e0|v]; [|discriminate Hrec].
      apply (IH e0 Hin) in Hrec as (e' & Hchain & Hinst).
      exists e'. split; [|exact Hinst].
      now apply chain_arg with (a := e0).
  - intros (e' & Hchain & Hinst).
    inversion Hchain as [|e0 a e1 Hin Hexc Hrest]; subst.
    + now left.
    + right. exists (ArgExn a). split; [exact Hin|].
      apply andb_true_iff. split; [exact Hexc|].
      apply (IH a Hin). now exists e'.
Qed.

Lemma known_loop_run ets e w :
  known_loop ets e w =
    (Ok (existsb (fun et => has_error et e) ets),
     if existsb (fun et => has_error et e) ets
     then set_trace (trace w ++ [write_log "Know ERR"]) w
     else w).
Proof.
  induction ets as [|et ets IH]; [reflexivity|].
  cbn [known_loop existsb]. destruct (has_error et e); [reflexivity|exact IH].
Qed.


Example known_remote_disconnect : known remote_disconnect = true.
Proof. reflexivity. Qed.

Example known_value_error : known value_error = false.
Proof. reflexivity. Qed.

Example known_wrapped_in_system_exit : known wrapped_in_system_exit = false.
Proof. reflexivity. Qed.

(** ** The retry policy of the error handler *)

Lemma subscribe_transaction_run env w :
  subscribe_transaction env w =
    (Ok tt, set_trace (trace w ++ call_effects env partial_subscribe_transaction) w).
Proof.
  unfold subscribe_transaction, call_effects. rewrite (bind_ok _ _ _ _ _ (emit_run _ _)).
  rewrite emit_run. cbn [trace set_trace]. now rewrite <- app_assoc.
Qed.

Lemma call_run env f w :
  call env f w = (Ok tt, set_trace (trace w ++ call_effects env f) w).
Proof.
  destruct f as [req|]; [reflexivity|apply subscribe_transaction_run].
Qed.

Lemma requests_opened_call env f :
  requests_opened (call_effects env f) = [request_of env f].
Proof. now destruct f. Qed.

Lemma requests_opened_app t1 t2 :
  requests_opened (t1 ++ t2) = requests_opened t1 ++ requests_opened t2.
Proof.
  induction t1 as [|e t1 IH]; [reflexivity|].
  destruct e; cbn [requests_opened app]; now rewrite ?IH.
Qed.

Lemma escalations_app t1 t2 :
  escalations (t1 ++ t2) = escalations t1 ++ escalations t2.
Proof.
  induction t1 as [|e t1 IH]; [reflexivity|].
  destruct e; cbn [escalations app]; now rewrite ?IH.
Qed.

Lemma escalations_call env f : escalations (call_effects env f) = [].
Proof. now destruct f. Qed.

(** C3: whatever the class of the error, the handler invokes the
    re-subscribe operation exactly once (it opens the one request that
    operation opens); it hands the error to the generic error handler when,
    and only when, the error is not known. *)
Theorem on_streaming_error_retries_once
    (env : Env) (re_subscribe : callable) (exception_type : string)
    (exception_value : exn) (w : world) :
  exists delta,
    on_streaming_error env re_subscribe exception_type exception_value w
      = (Ok tt, set_trace (trace w ++ delta) w)
    /\ requests_opened delta = [request_of env re_subscribe]
    /\ escalations delta
       = (if known exception_value then [] else [(exception_type, exception_value)]).
Proof.
  unfold on_streaming_error.
  rewrite (bind_ok _ _ _ _ _ (emit_run _ _)).
  rewrite (bind_ok _ _ _ _ _ (known_loop_run _ _ _)).
  fold (known exception_value). destruct (known exception_value).
  - rewrite call_run. cbn [trace set_trace].
    exists ([write_log "ERRRRRROOOOOORRRRR"; write_log "Know ERR"]
            ++ call_effects env re_subscribe).
    split; [|split].
    + now rewrite <- !app_assoc.
    + rewrite requests_opened_app, requests_opened_call. reflexivity.
    + rewrite escalations_app, escalations_call. reflexivity.
  - rewrite (bind_ok _ _ _ _ _ (call_run _ _ _)).
    rewrite (bind_ok _ _ _ _ _ (emit_run _ _)). rewrite emit_run.
    cbn [trace set_trace].
    exists ([write_log "ERRRRRROOOOOORRRRR"] ++ call_effects env re_subscribe
            ++ [write_log "UNKnow ERR"; super_on_error exception_type exception_value]).
    split; [|split].
    + now rewrite <- !app_assoc.
    + rewrite !requests_opened_app, requests_opened_call. reflexivity.
    + rewrite !escalations_app, escalations_call. reflexivity.
Qed.

(** ** The transaction stream *)

Lemma dict_getitem_some d key v w :
  dict_lookup d key = Some v -> dict_getitem d key w = (Ok v, w).
Proof. intros H. unfold dict_getitem. now rewrite H. Qed.

Lemma dict_getitem_none d key w :
  dict_lookup d key = None -> dict_getitem d key w = (Raise KeyError, w).
Proof. intros H. unfold dict_getitem. now rewrite H. Qed.

Lemma _transaction_callbacks_get_outside type_ w :
  hashable type_ = true -> in_dispatch_table type_ = false ->
  _transaction_callbacks_get type_ w = (Ok None, w).
Proof.
  intros Hh Ht. destruct type_; try reflexivity; try discriminate Hh.
  unfold _transaction_callbacks_get, in_dispatch_table in *.
  now destruct (table_lookup _transaction_callbacks s).
Qed.

(** C8: a transaction message whose discriminant is outside the dispatch
    table makes no call to the host, returns normally and refreshes the
    account's entry of the Liveness Ledger; for HEARTBEAT nothing else
    happens, for any other such discriminant the discriminant is printed. *)
Theorem on_transaction_outside_dispatch_table
    (env : Env) (data : dict) (now : datetime) (w : world) (type_ : pyval) :
  dict_lookup data "type" = Some type_ ->
  hashable type_ = true ->
  in_dispatch_table type_ = false ->
  on_transaction env data now w =
    (Ok tt,
     set_trans_latest_stream_time
       (<[account_id env := now]> (trans_latest_stream_time w))
       (set_trace (trace w ++ (if eq_str type_ "HEARTBEAT" then [] else [print type_])) w)).
Proof.
  intros Htype Hhash Htable. unfold on_transaction.
  rewrite (bind_ok _ _ _ _ _ (dict_getitem_some _ _ _ _ Htype)).
  rewrite (bind_ok _ _ _ _ _ (_transaction_callbacks_get_outside _ _ Hhash Htable)).
  destruct (eq_str type_ "HEARTBEAT"); cbn [negb].
  - rewrite app_nil_r, set_trace_trace. reflexivity.
  - rewrite (bind_ok _ _ _ _ _ (emit_run _ _)). reflexivity.
Qed.

Lemma order_id_run fallback data id w :
  transaction_order_id fallback data = Some id ->
  (if is_None (dict_get data "clientOrderID") then dict_getitem data fallback
   else ret (dict_get data "clientOrderID")) w
  = (Ok id, w).
Proof.
  unfold transaction_order_id, dict_get. intros H.
  destruct (dict_lookup data "clientOrderID") as [v|]; cbn [is_None].
  - destruct v; cbn [is_None]; try (injection H as <-; reflexivity).
    now apply dict_getitem_some.
  - now apply dict_getitem_some.
Qed.

Lemma orders_getitem_missing id w :
  orders (gw w) !! id = None -> orders_getitem (PStr id) w = (Raise KeyError, w).
Proof. intros H. unfold orders_getitem, bind, gets. now rewrite H. Qed.

Lemma orders_getitem_found id l w :
  orders (gw w) !! id = Some l -> orders_getitem (PStr id) w = (Ok l, w).
Proof. intros H. unfold orders_getitem, bind, gets. now rewrite H. Qed.

Lemma on_order_filled_missing env data id w :
  transaction_order_id "orderID" data = Some (PStr id) ->
  orders (gw w) !! id = None ->
  on_order_filled env data w = (Raise KeyError, w).
Proof.
  intros Hid Hmiss. unfold on_order_filled. cbv zeta.
  rewrite (bind_ok _ _ _ _ _ (order_id_run _ _ _ _ Hid)).
  now rewrite (bind_raise _ _ _ _ _ (orders_getitem_missing _ _ Hmiss)).
Qed.

Lemma on_order_canceled_missing env data id w :
  transaction_order_id "id" data = Some (PStr id) ->
  orders (gw w) !! id = None ->
  on_order_canceled env data w = (Raise KeyError, w).
Proof.
  intros Hid Hmiss. unfold on_order_canceled. cbv zeta.
  rewrite (bind_ok _ _ _ _ _ (order_id_run _ _ _ _ Hid)).
  now rewrite (bind_raise _ _ _ _ _ (orders_getitem_missing _ _ Hmiss)).
Qed.

Lemma on_transaction_dispatch env data now w s cb :
  dict_lookup data "type" = Some (PStr s) ->
  table_lookup _transaction_callbacks s = Some cb ->
  on_transaction env data now w =
    bind (call_transaction_callback env cb data)
         (fun _ => trans_latest_stream_time_setitem env now) w.
Proof.
  intros Htype Hcb. unfold on_transaction.
  rewrite (bind_ok _ _ _ _ _ (dict_getitem_some _ _ _ _ Htype)).
  unfold _transaction_callbacks_get. rewrite Hcb. reflexivity.
Qed.

(** C4, as the code has it: a fill or a cancel whose order id is not in the
    order store raises KeyError out of the handler; nothing is logged, no
    event reaches the host, no order changes and the account's entry of the
    Liveness Ledger is not refreshed. *)
Theorem on_transaction_missing_order_raises
    (env : Env) (data : dict) (now : datetime) (w : world) (type_ id : string) :
  dict_lookup data "type" = Some (PStr type_) ->
  type_ = "ORDER_FILL" \/ type_ = "ORDER_CANCEL" ->
  transaction_order_id (fallback_key type_) data = Some (PStr id) ->
  orders (gw w) !! id = None ->
  on_transaction env data now w = (Raise KeyError, w).
Proof.
  intros Htype Hkind Hid Hmiss. destruct Hkind as [-> | ->].
  - rewrite (on_transaction_dispatch _ _ _ _ _ the_on_order_filled Htype eq_refl).
    apply bind_raise. now apply on_order_filled_missing with (id := id).
  - rewrite (on_transaction_dispatch _ _ _ _ _ the_on_order_canceled Htype eq_refl).
    apply bind_raise. now apply on_order_canceled_missing with (id := id).
Qed.

Lemma bind_gets {A B} (f : world -> A) (k : A -> M B) w :
  bind (gets f) k w = k (f w) w.
Proof. reflexivity. Qed.

Lemma bind_modify {B} (f : world -> world) (k : unit -> M B) w :
  bind (modify f) k w = k tt (f w).
Proof. reflexivity. Qed.

Lemma bind_emit {B} (e : effect) (k : unit -> M B) w :
  bind (emit e) k w = k tt (set_trace (trace w ++ [e]) w).
Proof. reflexivity. Qed.

Lemma bind_lift_ok {A B} (r : result A) (k : A -> M B) a w :
  r = Ok a -> bind (lift r) k w = k a w.
Proof. now intros ->. Qed.

Lemma bind_lift_raise {A B} (r : result A) (k : A -> M B) e w :
  r = Raise e -> bind (lift r) k w = (Raise e, w).
Proof. now intros ->. Qed.

Lemma on_order_filled_run env data w id l p f tv t :
  transaction_order_id "orderID" data = Some (PStr id) ->
  orders (gw w) !! id = Some l ->
  dict_lookup data "price" = Some p -> py_float env p = Ok f ->
  dict_lookup data "time" = Some tv -> parse_time env tv = Ok t ->
  exists w',
    on_order_filled env data w = (Ok tt, w')
    /\ trace w' = trace w ++ [gateway_on_trade (fill_trade env (PStr id) (heap (gw w) l) f t);
                               gateway_on_order l]
    /\ heap (gw w') l = filled t (heap (gw w) l)
    /\ (forall l', l' <> l -> heap (gw w') l' = heap (gw w) l')
    /\ orders (gw w') = orders (gw w)
    /\ latest_stream_time w' = latest_stream_time w
    /\ trans_latest_stream_time w' = trans_latest_stream_time w.
Proof.
  intros Hid Hfound Hp Hf Htv Ht. unfold on_order_filled. cbv zeta.
  rewrite (bind_ok _ _ _ _ _ (order_id_run _ _ _ _ Hid)).
  rewrite (bind_ok _ _ _ _ _ (orders_getitem_found _ _ _ Hfound)).
  rewrite (bind_ok _ _ _ _ _ (dict_getitem_some _ _ _ _ Hp)).
  rewrite (bind_lift_ok _ _ _ _ Hf).
  unfold order_getattr, order_setattr. rewrite !bind_gets.
  rewrite (bind_ok _ _ _ _ _ (dict_getitem_some _ _ _ _ Htv)).
  rewrite (bind_lift_ok _ _ _ _ Ht).
  rewrite bind_emit, bind_gets, !bind_modify.
  rewrite (bind_ok _ _ _ _ _ (dict_getitem_some _ _ _ _ Htv)).
  rewrite (bind_lift_ok _ _ _ _ Ht).
  rewrite bind_modify, emit_run.
  eexists. split; [reflexivity|].
  cbn [trace set_trace set_gw gw heap orders latest_stream_time trans_latest_stream_time].
  rewrite Pos.eqb_refl. repeat split.
  - now rewrite <- app_assoc.
  - intros l' Hne. apply Pos.eqb_neq in Hne. now rewrite Hne.
Qed.

(** C5: an ORDER_FILL is looked up by its client-assigned id, or by the
    broker-assigned order id when the message has no client id; when the
    order is in the store (and the message has its price and time), the host
    receives exactly one trade, priced at the message's price field, for the
    full volume of the order, and then the order, whose status is now
    ALLTRADED and whose traded volume is its volume. *)
Theorem on_transaction_order_fill
    (env : Env) (data : dict) (now : datetime) (w : world)
    (id : string) (l : loc) (p : pyval) (f : float) (tv t : pyval) :
  dict_lookup data "type" = Some (PStr "ORDER_FILL") ->
  transaction_order_id "orderID" data = Some (PStr id) ->
  orders (gw w) !! id = Some l ->
  dict_lookup data "price" = Some p -> py_float env p = Ok f ->
  dict_lookup data "time" = Some tv -> parse_time env tv = Ok t ->
  exists w',
    on_transaction env data now w = (Ok tt, w')
    /\ trace w' = trace w ++ [gateway_on_trade (fill_trade env (PStr id) (heap (gw w) l) f t);
                               gateway_on_order l]
    /\ heap (gw w') l = filled t (heap (gw w) l)
    /\ (forall l', l' <> l -> heap (gw w') l' = heap (gw w) l')
    /\ orders (gw w') = orders (gw w).
Proof.
  intros Htype Hid Hfound Hp Hf Htv Ht.
  destruct (on_order_filled_run env data w id l p f tv t Hid Hfound Hp Hf Htv Ht)
    as (w1 & Hrun & Htrace & Hheap & Hothers & Horders & _).
  rewrite (on_transaction_dispatch _ _ _ _ _ the_on_order_filled Htype eq_refl).
  cbn [call_transaction_callback]. rewrite (bind_ok _ _ _ _ _ Hrun).
  eexists. split; [reflexivity|].
  cbn [trace set_trans_latest_stream_time gw]. auto.
Qed.

(** ** The price stream *)

Lemma always_raises_bind {A B} (c : M A) (k : A -> M B) :
  stateless c -> (forall a, always_raises (k a)) -> always_raises (bind c k).
Proof.
  intros Hc Hk w. unfold bind. specialize (Hc w).
  destruct (c w) as [[a|e] w']; cbn [snd] in Hc; subst w'.
  - apply Hk.
  - now exists e.
Qed.

Lemma always_raises_first {A B} (c : M A) (k : A -> M B) :
  always_raises c -> always_raises (bind c k).
Proof.
  intros Hc w. destruct (Hc w) as [e He]. exists e. now apply bind_raise.
Qed.

Lemma stateless_lift {A} (r : result A) : stateless (lift r).
Proof. now intros w. Qed.

Lemma stateless_dict_getitem d key : stateless (dict_getitem d key).
Proof. intros w. unfold dict_getitem. now destruct (dict_lookup d key). Qed.

Lemma stateless_getitem_int v i : stateless (getitem_int v i).
Proof.
  intros w. destruct v; try reflexivity; cbn [getitem_int].
  - now destruct (string_nth s i).
  - now destruct (l !! i).
Qed.

Lemma stateless_getitem_str v key : stateless (getitem_str v key).
Proof. destruct v; try (now intros w). apply stateless_dict_getitem. Qed.

Lemma stateless_split_dot v : stateless (split_dot v).
Proof. now destruct v; intros w. Qed.

Lemma stateless_list_getitem {A} (l : list A) i : stateless (list_getitem l i).
Proof. intros w. unfold list_getitem. now destruct (l !! i). Qed.

Lemma stateless_float_truediv_int x z : stateless (float_truediv_int x z).
Proof.
  intros w. unfold float_truediv_int. destruct (z =? 0); [reflexivity|].
  unfold bind, lift. now destruct (float_of_int z).
Qed.

Lemma stateless_float_mul_int x z : stateless (float_mul_int x z).
Proof. intros w. unfold float_mul_int, bind, lift. now destruct (float_of_int z). Qed.

Lemma stateless_load_name x : stateless (load_name x).
Proof. intros w. unfold load_name. now destruct (_ || _). Qed.

Lemma load_name_s_raises : always_raises (load_name "s").
Proof. intros w. now exists NameError. Qed.

Lemma tuple_truediv_raises t z : always_raises (tuple_truediv t z).
Proof. intros w. now exists TypeError. Qed.

Create HintDb stateless.

#[local] Hint Resolve stateless_lift stateless_dict_getitem stateless_getitem_int
  stateless_getitem_str stateless_split_dot stateless_list_getitem
  stateless_float_truediv_int stateless_float_mul_int stateless_load_name : stateless.

Ltac raise_step :=
  first [ apply always_raises_first; first [apply load_name_s_raises | apply tuple_truediv_raises]
        | apply always_raises_bind; [auto with stateless | intros ?] ].

(** The second defect of the branch: line 165 divides a tuple by 2, so the
    [TickData] expression raises whatever it is given. *)
Lemma on_price_tick_raises env symbol data bid ask float_point round_add :
  always_raises (on_price_tick env symbol data bid ask float_point round_add).
Proof. unfold on_price_tick. do 7 raise_step. Qed.

(** The branch of a PRICE message raises before it builds a tick: line 158
    reads the name [s], which no scope binds. *)
Lemma on_price_PRICE_raises env data : always_raises (on_price_PRICE env data).
Proof. unfold on_price_PRICE. cbv zeta. do 13 raise_step. Qed.

Lemma on_price_PRICE_run env symbol data now w :
  dict_lookup data "type" = Some (PStr "PRICE") ->
  exists e, on_price env symbol data now w = (Raise e, w).
Proof.
  intros Htype. unfold on_price.
  rewrite (bind_ok _ _ _ _ _ (dict_getitem_some _ _ _ _ Htype)).
  change (eq_str (PStr "PRICE") "PRICE") with true. cbv iota.
  destruct (on_price_PRICE_raises env data w) as [e He].
  exists e. now apply bind_raise.
Qed.

(** A message of another discriminant refreshes the entry of the symbol the
    stream was subscribed under. *)
Lemma on_price_other_type env symbol data now w type_ :
  dict_lookup data "type" = Some type_ ->
  eq_str type_ "PRICE" = false ->
  on_price env symbol data now w =
    (Ok tt, set_latest_stream_time (<[symbol := now]> (latest_stream_time w)) w).
Proof.
  intros Htype Hne. unfold on_price.
  rewrite (bind_ok _ _ _ _ _ (dict_getitem_some _ _ _ _ Htype)).
  now rewrite Hne.
Qed.

(** C2: for every PRICE message the handler raises and leaves the object
    as it was; no last price is computed. *)
Theorem on_price_PRICE_computes_no_last_price
    (env : Env) (symbol : string) (data : dict) (now : datetime) (w : world) :
  dict_lookup data "type" = Some (PStr "PRICE") ->
  is_raise (fst (on_price env symbol data now w)) = true
  /\ snd (on_price env symbol data now w) = w.
Proof.
  intros Htype. destruct (on_price_PRICE_run env symbol data now w Htype) as [e He].
  now rewrite He.
Qed.

(** C7: whatever the message, [on_price] hands no tick to the host: the
    list of outward calls is the same after the call as before. *)
Theorem on_price_emits_no_tick
    (env : Env) (symbol : string) (data : dict) (now : datetime) (w : world) :
  trace (snd (on_price env symbol data now w)) = trace w.
Proof.
  destruct (dict_lookup data "type") as [type_|] eqn:Htype.
  - destruct (eq_str type_ "PRICE") eqn:Hprice.
    + destruct type_; try discriminate Hprice.
      apply String.eqb_eq in Hprice. subst s.
      destruct (on_price_PRICE_run env symbol data now w Htype) as [e He].
      now rewrite He.
    + now rewrite (on_price_other_type _ _ _ _ _ _ Htype Hprice).
  - unfold on_price. now rewrite (bind_raise _ _ _ _ _ (dict_getitem_none _ _ _ Htype)).
Qed.

(** C10: a PRICE message refreshes no entry of the Liveness Ledger, neither
    that of its instrument nor that of the subscribed symbol. *)
Theorem on_price_PRICE_refreshes_no_entry
    (env : Env) (symbol : string) (data : dict) (now : datetime) (w : world) :
  dict_lookup data "type" = Some (PStr "PRICE") ->
  latest_stream_time (snd (on_price env symbol data now w)) = latest_stream_time w.
Proof.
  intros Htype. destruct (on_price_PRICE_run env symbol data now w Htype) as [e He].
  now rewrite He.
Qed.

(** ** The handlers on the messages of P2, P6, P7 and P8 *)

Example on_price_p2 :
  on_price example_env "EUR_USD" p2_message (timedelta_seconds 5) example_world
  = (Raise NameError, example_world).
Proof. vm_compute. reflexivity. Qed.

Example on_price_p7 :
  on_price example_env "EUR_USD" p7_message (timedelta_seconds 5) example_world
  = (Raise NameError, example_world).
Proof. vm_compute. reflexivity. Qed.

(** With a valid message even the part of the [TickData] expression before
    the division runs through, and the division raises TypeError. *)
Example on_price_tick_p7 :
  on_price_tick example_env (PStr "EUR_USD") p7_message
    (price_level "1.10000" 10) (price_level "1.10020" 20) 5 10
    example_world
  = (Raise TypeError, example_world).
Proof. vm_compute. reflexivity. Qed.

(** Line 170 on its own: the average of the two sides, halves rounded up
    by the 0.5 added before the division. *)
Example on_price_volume_10_20 :
  fst (on_price_volume example_env (price_level "1.10000" 10) (price_level "1.10020" 20)
         example_world) = Ok 15.
Proof. vm_compute. reflexivity. Qed.

Example on_price_volume_10_11 :
  fst (on_price_volume example_env (price_level "1.10000" 10) (price_level "1.10020" 11)
         example_world) = Ok 11.
Proof. vm_compute. reflexivity. Qed.

(** A bid price without digits after the point: line 157 divides by zero. *)
Example on_price_no_digits :
  on_price example_env "EUR_USD" (price_message "EUR_USD" "1." "1.1" 10 20)
    (timedelta_seconds 5) example_world
  = (Raise ZeroDivisionError, example_world).
Proof. vm_compute. reflexivity. Qed.

Example on_price_usd_jpy :
  on_price example_env "EUR_USD" usd_jpy_price (timedelta_seconds 5) example_world
  = (Raise NameError, example_world).
Proof. vm_compute. reflexivity. Qed.

(** The theorem of C2 on the message of P2. *)
Lemma on_price_PRICE_computes_no_last_price_witness :
  is_raise (fst (on_price example_env "EUR_USD" p2_message (timedelta_seconds 5)
                   example_world)) = true
  /\ snd (on_price example_env "EUR_USD" p2_message (timedelta_seconds 5) example_world)
     = example_world.
Proof.
  exact (on_price_PRICE_computes_no_last_price example_env "EUR_USD" p2_message
           (timedelta_seconds 5) example_world eq_refl).
Defined.

(** The theorem of C10 on a USD_JPY price that arrives on the EUR_USD
    stream. *)
Lemma on_price_PRICE_refreshes_no_entry_witness :
  latest_stream_time
    (snd (on_price example_env "EUR_USD" usd_jpy_price (timedelta_seconds 5) example_world))
  = latest_stream_time example_world.
Proof.
  exact (on_price_PRICE_refreshes_no_entry example_env "EUR_USD" usd_jpy_price
           (timedelta_seconds 5) example_world eq_refl).
Defined.

(** The theorem of C8 on a heartbeat. *)
Lemma on_transaction_outside_dispatch_table_witness :
  on_transaction example_env heartbeat (timedelta_seconds 5) example_world
  = (Ok tt,
     set_trans_latest_stream_time
       (<[account_id example_env := timedelta_seconds 5]>
          (trans_latest_stream_time example_world))
       (set_trace (trace example_world ++ []) example_world)).
Proof.
  exact (on_transaction_outside_dispatch_table example_env heartbeat (timedelta_seconds 5)
           example_world (PStr "HEARTBEAT") eq_refl eq_refl eq_refl).
Defined.

(** The theorem of C4 on the fill of P6. *)
Lemma on_transaction_missing_order_raises_witness :
  on_transaction example_env unknown_fill (timedelta_seconds 5) example_world
  = (Raise KeyError, example_world).
Proof.
  apply (on_transaction_missing_order_raises example_env unknown_fill (timedelta_seconds 5)
           example_world "ORDER_FILL" "6358").
  - reflexivity.
  - left. reflexivity.
  - reflexivity.
  - vm_compute. reflexivity.
Defined.

(** C4 as the specification has it fails on the fill of P6: the handler
    does not return, and it has logged nothing when it raises. *)
Lemma unknown_fill_is_not_skipped :
  ~ (exists w', on_transaction example_env unknown_fill (timedelta_seconds 5) example_world
                = (Ok tt, w'))
  /\ trace (snd (on_transaction example_env unknown_fill (timedelta_seconds 5)
                   example_world)) = [].
Proof.
  split.
  - intros [w' H]. vm_compute in H. discriminate H.
  - vm_compute. reflexivity.
Qed.

Example transaction_order_id_client :
  transaction_order_id "orderID" p8_fill = Some (PStr "abc").
Proof. reflexivity. Qed.

Example transaction_order_id_fallback :
  transaction_order_id "orderID" unknown_fill = Some (PStr "6358")
  /\ transaction_order_id "orderID"
       [("clientOrderID", PNone); ("orderID", PStr "6359")]%string = Some (PStr "6359").
Proof. split; reflexivity. Qed.

(** The theorem of C5 on the fill of P8. *)
Lemma on_transaction_order_fill_witness :
  exists w',
    on_transaction example_env p8_fill (timedelta_seconds 5) example_world = (Ok tt, w')
    /\ trace w' = trace example_world
         ++ [gateway_on_trade
               (fill_trade example_env (PStr "abc") (heap (gw example_world) 1%positive)
                  1.2345%float (PStr "2019-06-21T08:32:25.000000000Z"));
             gateway_on_order 1%positive]
    /\ heap (gw w') 1%positive
       = filled (PStr "2019-06-21T08:32:25.000000000Z") (heap (gw example_world) 1%positive)
    /\ (forall l', l' <> 1%positive -> heap (gw w') l' = heap (gw example_world) l')
    /\ orders (gw w') = orders (gw example_world).
Proof.
  apply (on_transaction_order_fill example_env p8_fill (timedelta_seconds 5) example_world
           "abc" 1%positive (PStr "1.2345") 1.2345%float
           (PStr "2019-06-21T08:32:25.000000000Z")
           (PStr "2019-06-21T08:32:25.000000000Z")).
  - reflexivity.
  - reflexivity.
  - vm_compute. reflexivity.
  - reflexivity.
  - vm_compute. reflexivity.
  - reflexivity.
  - reflexivity.
Defined.

(** ** The Liveness Ledger along a sequence of messages *)

Lemma keeps_ledgers_bind {A B} (c : M A) (k : A -> M B) :
  keeps_ledgers c -> (forall a, keeps_ledgers (k a)) -> keeps_ledgers (bind c k).
Proof.
  intros Hc Hk w. unfold bind. specialize (Hc w).
  destruct (c w) as [[a|e] w']; cbn [snd] in *.
  - destruct (Hk a w') as [H1 H2]. destruct Hc as [H3 H4]. split; congruence.
  - exact Hc.
Qed.

Lemma keeps_ledgers_stateless {A} (c : M A) : stateless c -> keeps_ledgers c.
Proof. intros H w. now rewrite H. Qed.

Lemma keeps_ledgers_emit e : keeps_ledgers (emit e).
Proof. now intros w. Qed.

Lemma keeps_ledgers_ret {A} (a : A) : keeps_ledgers (ret a).
Proof. now intros w. Qed.

Lemma keeps_ledgers_order_setattr order f : keeps_ledgers (order_setattr order f).
Proof. now intros w. Qed.

Lemma keeps_ledgers_order_getattr {A} order (f : OrderData -> A) :
  keeps_ledgers (order_getattr order f).
Proof. now intros w. Qed.

Lemma keeps_ledgers_orders_getitem order_id : keeps_ledgers (orders_getitem order_id).
Proof.
  intros w. destruct order_id; try (now split).
  unfold orders_getitem, bind, gets. now destruct (orders (gw w) !! s).
Qed.

Lemma keeps_ledgers_order_id data fallback :
  keeps_ledgers (if is_None (dict_get data "clientOrderID") then dict_getitem data fallback
                 else ret (dict_get data "clientOrderID")).
Proof.
  destruct (is_None _).
  - apply keeps_ledgers_stateless, stateless_dict_getitem.
  - apply keeps_ledgers_ret.
Qed.

Create HintDb ledgers.

#[local] Hint Resolve keeps_ledgers_emit keeps_ledgers_ret keeps_ledgers_order_setattr
  keeps_ledgers_order_getattr keeps_ledgers_orders_getitem keeps_ledgers_order_id : ledgers.

#[local] Hint Extern 1 (keeps_ledgers (dict_getitem _ _)) =>
  apply keeps_ledgers_stateless, stateless_dict_getitem : ledgers.

#[local] Hint Extern 1 (keeps_ledgers (lift _)) =>
  apply keeps_ledgers_stateless, stateless_lift : ledgers.

Ltac keeps_step := apply keeps_ledgers_bind; [auto with ledgers | intros ?].

Lemma keeps_ledgers_on_order_filled env data : keeps_ledgers (on_order_filled env data).
Proof. unfold on_order_filled. cbv zeta. do 16 keeps_step. auto with ledgers. Qed.

Lemma keeps_ledgers_on_order_canceled env data : keeps_ledgers (on_order_canceled env data).
Proof. unfold on_order_canceled. cbv zeta. do 6 keeps_step. auto with ledgers. Qed.

Lemma keeps_ledgers_on_order env data : keeps_ledgers (on_order env data).
Proof.
  unfold on_order. apply keeps_ledgers_bind; [|auto with ledgers].
  intros w. now destruct (parse_order_data env data NOTTRADED "time" (gw w)).
Qed.

Lemma keeps_ledgers_callback env cb data :
  keeps_ledgers (call_transaction_callback env cb data).
Proof.
  destruct cb; [apply keeps_ledgers_on_order_filled | apply keeps_ledgers_on_order
               | apply keeps_ledgers_on_order_canceled].
Qed.

Lemma keeps_ledgers__transaction_callbacks_get type_ :
  keeps_ledgers (_transaction_callbacks_get type_).
Proof. now destruct type_; intros w. Qed.

Lemma ledger_step_on_transaction env data now w :
  ledger_step now w (snd (on_transaction env data now w)).
Proof.
  unfold on_transaction.
  assert (Hpre : forall (c : M unit), keeps_ledgers c ->
            ledger_step now w (snd (bind c (fun _ => trans_latest_stream_time_setitem env now) w))).
  { intros c Hc. unfold bind. destruct (Hc w) as [H1 H2].
    destruct (c w) as [[[]|e] w']; cbn [snd] in *.
    - unfold ledger_step, trans_latest_stream_time_setitem, modify.
      cbn [snd latest_stream_time trans_latest_stream_time set_trans_latest_stream_time].
      split; [left; exact H1|right]. exists (account_id env). now rewrite H2.
    - split; left; assumption. }
  unfold bind at 1.
  destruct (dict_getitem data "type" w) as [[type_|e] w1] eqn:Htype;
    pose proof (stateless_dict_getitem data "type" w) as Hw; rewrite Htype in Hw;
    cbn [snd] in Hw; subst w1; [|split; now left].
  unfold bind at 1.
  destruct (_transaction_callbacks_get type_ w) as [[callback|e] w1] eqn:Hcb;
    pose proof (keeps_ledgers__transaction_callbacks_get type_ w) as Hw;
    rewrite Hcb in Hw; cbn [snd] in Hw.
  - assert (w1 = w) as ->.
    { destruct type_; unfold _transaction_callbacks_get, ret, raise in Hcb; congruence. }
    apply Hpre. destruct callback as [cb|].
    + apply keeps_ledgers_callback.
    + destruct (negb (eq_str type_ "HEARTBEAT")); auto with ledgers.
  - destruct Hw as [H1 H2]. split; left; assumption.
Qed.

Lemma ledger_step_on_price env symbol data now w :
  ledger_step now w (snd (on_price env symbol data now w)).
Proof.
  destruct (dict_lookup data "type") as [type_|] eqn:Htype.
  - destruct (eq_str type_ "PRICE") eqn:Hprice.
    + destruct type_; try discriminate Hprice.
      apply String.eqb_eq in Hprice. subst s.
      destruct (on_price_PRICE_run env symbol data now w Htype) as [e He].
      rewrite He. split; now left.
    + rewrite (on_price_other_type _ _ _ _ _ _ Htype Hprice).
      split; [right; now exists symbol|now left].
  - unfold on_price. rewrite (bind_raise _ _ _ _ _ (dict_getitem_none _ _ _ Htype)).
    split; now left.
Qed.

Lemma ledger_step_deliver env m now w :
  ledger_step now w (snd (deliver env m now w)).
Proof.
  destruct m; [apply ledger_step_on_price | apply ledger_step_on_transaction].
Qed.

Lemma insert_entry_le (m : gmap string datetime) k k' now t :
  map_Forall (fun _ x => x <= t) m -> t <= now ->
  entry_le (m !! k') (<[k := now]> m !! k').
Proof.
  intros Hm Hle. destruct (decide (k = k')) as [->|Hne].
  - rewrite lookup_insert_eq. destruct (m !! k') as [x|] eqn:Hx; cbn; [|exact I].
    specialize (Hm k' x Hx). cbn in Hm. lia.
  - rewrite lookup_insert_ne by exact Hne. destruct (m !! k'); cbn; [lia|exact I].
Qed.

Lemma entry_le_refl a : entry_le a a.
Proof. destruct a; cbn; [lia|exact I]. Qed.

Lemma insert_at_most (m : gmap string datetime) k now t :
  map_Forall (fun _ x => x <= t) m -> t <= now ->
  map_Forall (fun _ x => x <= now) (<[k := now]> m).
Proof.
  intros Hm Hle. apply map_Forall_insert_2; [lia|].
  intros k' x Hx. specialize (Hm k' x Hx). cbn in *. lia.
Qed.

Lemma at_most_weaken (m : gmap string datetime) t now :
  map_Forall (fun _ x => x <= t) m -> t <= now -> map_Forall (fun _ x => x <= now) m.
Proof. intros Hm Hle k x Hx. specialize (Hm k x Hx). cbn in *. lia. Qed.

Lemma ledger_step_at_most now t w w' :
  ledger_step now w w' -> ledgers_at_most t w -> t <= now -> ledgers_at_most now w'.
Proof.
  unfold ledgers_at_most. intros [Hp Ht] [H1 H2] Hle. split.
  - destruct Hp as [-> | [k ->]]; eauto using insert_at_most, at_most_weaken.
  - destruct Ht as [-> | [k ->]]; eauto using insert_at_most, at_most_weaken.
Qed.

Lemma ledger_step_entry_le now t w w' :
  ledger_step now w w' -> ledgers_at_most t w -> t <= now ->
  forall k, entry_le (latest_stream_time w !! k) (latest_stream_time w' !! k)
            /\ entry_le (trans_latest_stream_time w !! k) (trans_latest_stream_time w' !! k).
Proof.
  intros [Hp Ht] [H1 H2] Hle k. split.
  - destruct Hp as [-> | [k1 ->]]; eauto using insert_entry_le, entry_le_refl.
  - destruct Ht as [-> | [k2 ->]]; eauto using insert_entry_le, entry_le_refl.
Qed.

Lemma deliver_all_at_most env ms : forall t0 w,
  ledgers_at_most t0 w -> clock_nondecreasing t0 ms ->
  ledgers_at_most (last_reading t0 ms) (deliver_all env ms w).
Proof.
  induction ms as [|[m now] ms IH]; intros t0 w Hw Hclock; [exact Hw|].
  destruct Hclock as [Hle Hrest]. cbn [deliver_all last_reading fold_left snd].
  apply IH; [|exact Hrest].
  exact (ledger_step_at_most _ _ _ _ (ledger_step_deliver env m now w) Hw Hle).
Qed.

Lemma clock_nondecreasing_app t0 ms m now :
  clock_nondecreasing t0 (ms ++ [(m, now)]) ->
  clock_nondecreasing t0 ms /\ last_reading t0 ms <= now.
Proof.
  revert t0. induction ms as [|[m' t] ms IH]; intros t0; cbn.
  - intros [H _]. split; [exact I|exact H].
  - intros [H Hrest]. destruct (IH t Hrest) as [H1 H2]. auto.
Qed.

Lemma deliver_all_app env ms ms' w :
  deliver_all env (ms ++ ms') w = deliver_all env ms' (deliver_all env ms w).
Proof.
  revert w. induction ms as [|[m now] ms IH]; intros w; [reflexivity|]. cbn. apply IH.
Qed.

(** C9, as the code has it: along any sequence of messages of the two
    streams, handled at readings of the clock that do not go back (and start
    no earlier than the entries there are), the timestamp the Liveness
    Ledger holds for a key after a message is at least the one it held
    before that message. *)
Theorem ledger_timestamps_nondecreasing
    (env : Env) (w : world) (t0 : datetime)
    (ms : list (message * datetime)) (m : message) (now : datetime) (k : string) :
  ledgers_at_most t0 w ->
  clock_nondecreasing t0 (ms ++ [(m, now)]) ->
  entry_le (latest_stream_time (deliver_all env ms w) !! k)
           (latest_stream_time (deliver_all env (ms ++ [(m, now)]) w) !! k)
  /\ entry_le (trans_latest_stream_time (deliver_all env ms w) !! k)
              (trans_latest_stream_time (deliver_all env (ms ++ [(m, now)]) w) !! k).
Proof.
  intros Hw Hclock. apply clock_nondecreasing_app in Hclock as [Hms Hlast].
  rewrite deliver_all_app. cbn [deliver_all].
  apply (ledger_step_entry_le now (last_reading t0 ms)).
  - apply ledger_step_deliver.
  - now apply deliver_all_at_most.
  - exact Hlast.
Qed.

(** The theorem of C9 on a heartbeat, a fill and a heartbeat at seconds 5,
    6 and 9. *)
Lemma ledger_timestamps_nondecreasing_witness :
  let ms := [(price_stream_message "EUR_USD" heartbeat, timedelta_seconds 5);
             (transaction_stream_message p8_fill, timedelta_seconds 6)] in
  let m := price_stream_message "EUR_USD" heartbeat in
  let now := timedelta_seconds 9 in
  entry_le (latest_stream_time (deliver_all example_env ms example_world) !! "EUR_USD")
           (latest_stream_time (deliver_all example_env (ms ++ [(m, now)]) example_world)
              !! "EUR_USD")
  /\ entry_le (trans_latest_stream_time (deliver_all example_env ms example_world)
                 !! "EUR_USD")
              (trans_latest_stream_time
                 (deliver_all example_env (ms ++ [(m, now)]) example_world) !! "EUR_USD").
Proof.
  apply (ledger_timestamps_nondecreasing example_env example_world 0).
  - split; apply map_Forall_empty.
  - vm_compute. repeat split; discriminate.
Defined.

(** C9 as the specification has it fails when the clock steps back: lines
    173 and 234 store the reading of [datetime.now()], the local wall clock;
    with a heartbeat handled at the reading of second 10 and the next one at
    the reading of second 5, the entry of EUR_USD falls from second 10 to
    second 5. *)
Lemma clock_stepping_back_lowers_the_entry :
  latest_stream_time
    (deliver_all example_env
       [(price_stream_message "EUR_USD" heartbeat, timedelta_seconds 10)] example_world)
    !! "EUR_USD" = Some (timedelta_seconds 10)
  /\ latest_stream_time
       (deliver_all example_env
          ([(price_stream_message "EUR_USD" heartbeat, timedelta_seconds 10)]
           ++ [(price_stream_message "EUR_USD" heartbeat, timedelta_seconds 5)])
          example_world)
       !! "EUR_USD" = Some (timedelta_seconds 5)
  /\ ~ entry_le
         (latest_stream_time
            (deliver_all example_env
               [(price_stream_message "EUR_USD" heartbeat, timedelta_seconds 10)]
               example_world) !! "EUR_USD")
         (latest_stream_time
            (deliver_all example_env
               ([(price_stream_message "EUR_USD" heartbeat, timedelta_seconds 10)]
                ++ [(price_stream_message "EUR_USD" heartbeat, timedelta_seconds 5)])
               example_world) !! "EUR_USD").
Proof.
  split; [vm_compute; reflexivity|]. split; [vm_compute; reflexivity|].
  vm_compute. intros H. apply H. reflexivity.
Qed.

(** ** The watchdog *)

Lemma copy_id req : copy req = req.
Proof. now destruct req. Qed.

Lemma check_price_stream_run env req c w :
  check_price_stream env (partial_subscribe req) req c w
  = (Ok tt, set_trace (trace w ++ price_rebuild env req c w) w).
Proof.
  unfold check_price_stream, price_rebuild. rewrite bind_gets. cbv zeta.
  replace (match latest_stream_time w !! req_symbol req with
           | Some t => t
           | None => now_132 c
           end) with (default (now_132 c) (latest_stream_time w !! req_symbol req))
    by now destruct (latest_stream_time w !! req_symbol req).
  destruct (timedelta_seconds 10 <? _).
  - rewrite bind_emit. cbn [call]. unfold subscribe. rewrite emit_run.
    cbn [trace set_trace]. now rewrite <- app_assoc.
  - unfold ret. now rewrite app_nil_r, set_trace_trace.
Qed.

Lemma check_transaction_stream_run env c w :
  check_transaction_stream env c w
  = (Ok tt, set_trace (trace w ++ transaction_rebuild env c w) w).
Proof.
  unfold check_transaction_stream, transaction_rebuild. rewrite bind_gets. cbv zeta.
  replace (match trans_latest_stream_time w !! account_id env with
           | Some t => t
           | None => now_143 c
           end) with (default (now_143 c) (trans_latest_stream_time w !! account_id env))
    by now destruct (trans_latest_stream_time w !! account_id env).
  destruct (timedelta_seconds 30 <? _).
  - rewrite bind_emit, subscribe_transaction_run.
    cbn [trace set_trace call_effects]. now rewrite <- app_assoc.
  - unfold ret. now rewrite app_nil_r, set_trace_trace.
Qed.

Lemma sleep_1_run c w :
  sleep_1 c w = (Ok tt, during_sleep c (set_trace (trace w ++ [time_sleep 1]) w)).
Proof. reflexivity. Qed.

(** C1, as the code has it.  The first connection of a price stream
    starts the watchdog, with the subscription that connected, and (unless
    the account has its entry already) the transaction stream; once
    [already_init_check] is set, a connection starts nothing.  A turn of the
    watchdog started for [req] checks the entry of the symbol of [req]
    against ten seconds and rebuilds that stream with the request of [req]
    itself, sleeps one second, then checks the account's entry against
    thirty seconds and rebuilds the transaction stream; it looks at no other
    key. *)
Theorem checker_cycle_watches_its_own_subscription
    (env : Env) (re_subscribe : callable) (req : SubscribeRequest)
    (now : datetime) (c : cycle_env) (w : world) :
  _start_connection_checker env re_subscribe req now (set_already_init_check false w)
    = (Ok tt,
       set_trace
         (trace w
          ++ [write_log "stream connection checker start in sub";
              thread_start re_subscribe req]
          ++ (if bool_decide (is_Some (trans_latest_stream_time w !! account_id env))
              then []
              else call_effects env partial_subscribe_transaction))
         (set_latest_stream_time (<[req_symbol req := now]> (latest_stream_time w))
            (set_after_subscribe true (set_already_init_check true w))))
  /\ _start_connection_checker env re_subscribe req now (set_already_init_check true w)
     = (Ok tt, set_already_init_check true w)
  /\ let w1 := during_sleep c
                 (set_trace (trace w ++ price_rebuild env req c w ++ [time_sleep 1]) w) in
     checker_cycle env (partial_subscribe (copy req)) (copy req) c w
       = (Ok tt, set_trace (trace w1 ++ transaction_rebuild env c w1) w1).
Proof.
  split; [|split; [reflexivity|]].
  { unfold _start_connection_checker. rewrite bind_gets.
    cbn [already_init_check set_already_init_check negb].
    rewrite bind_emit, !bind_modify.
    unfold latest_stream_time_setitem. rewrite bind_modify, bind_emit, bind_gets.
    cbn [trans_latest_stream_time set_trans_latest_stream_time set_trace
         set_latest_stream_time set_after_subscribe set_already_init_check
         latest_stream_time trace].
    destruct (bool_decide _).
    - unfold ret. rewrite app_nil_r, <- app_assoc. reflexivity.
    - rewrite subscribe_transaction_run. cbn [trace set_trace].
      rewrite <- !app_assoc. reflexivity. }
  cbv zeta. rewrite copy_id. unfold checker_cycle.
  rewrite (bind_ok _ _ _ _ _ (check_price_stream_run _ _ _ _)).
  rewrite (bind_ok _ _ _ _ _ (sleep_1_run _ _)).
  cbn [trace set_trace]. rewrite <- app_assoc, set_trace_twice.
  apply check_transaction_stream_run.
Qed.

(** An absent entry counts as fresh: with a clock that does not go back no
    rebuild follows from it. *)
Lemma price_rebuild_absent env req c w :
  latest_stream_time w !! req_symbol req = None ->
  now_130 c <= now_132 c ->
  price_rebuild env req c w = [].
Proof.
  intros Habs Hle. unfold price_rebuild. rewrite Habs. cbn [default].
  destruct (Z.ltb_spec (timedelta_seconds 10) (now_130 c - now_132 c)) as [H|H];
    [|reflexivity].
  unfold timedelta_seconds in H. lia.
Qed.

Lemma transaction_rebuild_absent env c w :
  trans_latest_stream_time w !! account_id env = None ->
  now_130 c <= now_143 c ->
  transaction_rebuild env c w = [].
Proof.
  intros Habs Hle. unfold transaction_rebuild. rewrite Habs. cbn [default].
  destruct (Z.ltb_spec (timedelta_seconds 30) (now_130 c - now_143 c)) as [H|H];
    [|reflexivity].
  unfold timedelta_seconds in H. lia.
Qed.

(** C1 as the specification has it fails with two price streams: USD_JPY is
    a tracked key, 59 seconds stale at second 60; the one watchdog there is
    was started for EUR_USD, and its turn rebuilds nothing. *)
Lemma stale_second_stream_is_not_rebuilt :
  latest_stream_time two_streams !! "USD_JPY" = Some (timedelta_seconds 1)
  /\ timedelta_seconds 10 < now_130 turn_at_60 - timedelta_seconds 1
  /\ threads_started (trace two_streams) = [(partial_subscribe eur_usd, eur_usd)]
  /\ trace (snd (checker_cycle example_env (partial_subscribe eur_usd) eur_usd
                   turn_at_60 two_streams))
     = trace two_streams ++ [time_sleep 1].
Proof.
  repeat split; vm_compute; reflexivity.
Qed.

(** * Further properties *)

(** ** Cancels and fills on the order store *)

Lemma time_of_bind {B} env data (k : pyval -> M B) w :
  bind (dict_getitem data "time") (fun time => bind (lift (parse_time env time)) k) w
  = match time_of env data with
    | Ok t => k t w
    | Raise e => (Raise e, w)
    end.
Proof.
  unfold time_of, bind, dict_getitem, lift, ret, raise.
  destruct (dict_lookup data "time") as [tv|]; [|reflexivity].
  now destruct (parse_time env tv).
Qed.

Lemma on_order_canceled_found env data w id l :
  transaction_order_id "id" data = Some (PStr id) ->
  orders (gw w) !! id = Some l ->
  exists w1,
    heap (gw w1) l = set_order_status CANCELLED (heap (gw w) l)
    /\ (forall l', l' <> l -> heap (gw w1) l' = heap (gw w) l')
    /\ orders (gw w1) = orders (gw w)
    /\ trace w1 = trace w
    /\ latest_stream_time w1 = latest_stream_time w
    /\ trans_latest_stream_time w1 = trans_latest_stream_time w
    /\ on_order_canceled env data w
       = match time_of env data with
         | Ok t => bind (order_setattr l (set_order_time t))
                        (fun _ => emit (gateway_on_order l)) w1
         | Raise e => (Raise e, w1)
         end.
Proof.
  intros Hid Hfound. unfold on_order_canceled. cbv zeta.
  rewrite (bind_ok _ _ _ _ _ (order_id_run _ _ _ _ Hid)).
  rewrite (bind_ok _ _ _ _ _ (orders_getitem_found _ _ _ Hfound)).
  unfold order_setattr at 1. rewrite bind_modify. rewrite time_of_bind.
  exists (set_gw {| orders := orders (gw w);
                    heap := fun l0 => if Pos.eqb l0 l
                                      then set_order_status CANCELLED (heap (gw w) l0)
                                      else heap (gw w) l0 |} w).
  cbn [gw set_gw heap orders trace latest_stream_time trans_latest_stream_time].
  rewrite Pos.eqb_refl. repeat split.
  intros l' Hne. apply Pos.eqb_neq in Hne. now rewrite Hne.
Qed.

(** X1: a cancel whose order is in the store and whose time parses marks
    the order CANCELLED, stamps the time, hands the order to the host once
    (no trade), leaves every other order alone and refreshes the account's
    entry of the Liveness Ledger. *)
Theorem on_transaction_order_cancel
    (env : Env) (data : dict) (now : datetime) (w : world)
    (id : string) (l : loc) (t : pyval) :
  dict_lookup data "type" = Some (PStr "ORDER_CANCEL") ->
  transaction_order_id "id" data = Some (PStr id) ->
  orders (gw w) !! id = Some l ->
  time_of env data = Ok t ->
  exists w',
    on_transaction env data now w = (Ok tt, w')
    /\ trace w' = trace w ++ [gateway_on_order l]
    /\ heap (gw w') l = cancelled t (heap (gw w) l)
    /\ (forall l', l' <> l -> heap (gw w') l' = heap (gw w) l')
    /\ orders (gw w') = orders (gw w)
    /\ trans_latest_stream_time w'
       = <[account_id env := now]> (trans_latest_stream_time w).
Proof.
  intros Htype Hid Hfound Ht.
  destruct (on_order_canceled_found env data w id l Hid Hfound)
    as (w1 & Hl & Hothers & Horders & Htrace & _ & Htl & Hrun).
  rewrite Ht in Hrun.
  rewrite (on_transaction_dispatch _ _ _ _ _ the_on_order_canceled Htype eq_refl).
  cbn [call_transaction_callback]. unfold order_setattr in Hrun.
  rewrite bind_modify, emit_run in Hrun. rewrite (bind_ok _ _ _ _ _ Hrun).
  eexists. split; [reflexivity|].
  cbn [trace set_trace set_gw gw heap orders trans_latest_stream_time
       set_trans_latest_stream_time].
  rewrite Pos.eqb_refl, Hl, Htrace, Horders, Htl. repeat split.
  intros l' Hne. pose proof Hne as Hne'. apply Pos.eqb_neq in Hne'.
  rewrite Hne'. now apply Hothers.
Qed.

(** X2: a cancel whose order is in the store but whose time is missing or
    does not parse raises after line 248 has run: the order is left
    CANCELLED with its old time, the host is not told, and the account's
    entry of the Liveness Ledger is not refreshed. *)
Theorem on_transaction_order_cancel_without_time
    (env : Env) (data : dict) (now : datetime) (w : world)
    (id : string) (l : loc) (e : exc) :
  dict_lookup data "type" = Some (PStr "ORDER_CANCEL") ->
  transaction_order_id "id" data = Some (PStr id) ->
  orders (gw w) !! id = Some l ->
  time_of env data = Raise e ->
  exists w',
    on_transaction env data now w = (Raise e, w')
    /\ trace w' = trace w
    /\ order_status (heap (gw w') l) = CANCELLED
    /\ order_time (heap (gw w') l) = order_time (heap (gw w) l)
    /\ trans_latest_stream_time w' = trans_latest_stream_time w.
Proof.
  intros Htype Hid Hfound Ht.
  destruct (on_order_canceled_found env data w id l Hid Hfound)
    as (w1 & Hl & _ & _ & Htrace & _ & Htl & Hrun).
  rewrite Ht in Hrun.
  rewrite (on_transaction_dispatch _ _ _ _ _ the_on_order_canceled Htype eq_refl).
  cbn [call_transaction_callback]. rewrite (bind_raise _ _ _ _ _ Hrun).
  exists w1. rewrite Hl. repeat split; assumption.
Qed.

(** The theorem of X1 on a cancel of the order abc. *)
Lemma on_transaction_order_cancel_witness :
  exists w',
    on_transaction example_env cancel_abc (timedelta_seconds 7) example_world = (Ok tt, w')
    /\ trace w' = trace example_world ++ [gateway_on_order 1%positive]
    /\ heap (gw w') 1%positive
       = cancelled (PStr "2019-06-21T08:32:27.000000000Z")
           (heap (gw example_world) 1%positive)
    /\ (forall l', l' <> 1%positive -> heap (gw w') l' = heap (gw example_world) l')
    /\ orders (gw w') = orders (gw example_world)
    /\ trans_latest_stream_time w'
       = <[account_id example_env := timedelta_seconds 7]>
           (trans_latest_stream_time example_world).
Proof.
  apply (on_transaction_order_cancel example_env cancel_abc (timedelta_seconds 7)
           example_world "abc" 1%positive).
  - reflexivity.
  - reflexivity.
  - vm_compute. reflexivity.
  - reflexivity.
Defined.

(** The theorem of X2 on the same cancel without its time. *)
Lemma on_transaction_order_cancel_without_time_witness :
  exists w',
    on_transaction example_env cancel_abc_untimed (timedelta_seconds 7) example_world
    = (Raise KeyError, w')
    /\ trace w' = trace example_world
    /\ order_status (heap (gw w') 1%positive) = CANCELLED
    /\ order_time (heap (gw w') 1%positive)
       = order_time (heap (gw example_world) 1%positive)
    /\ trans_latest_stream_time w' = trans_latest_stream_time example_world.
Proof.
  apply (on_transaction_order_cancel_without_time example_env cancel_abc_untimed
           (timedelta_seconds 7) example_world "abc" 1%positive KeyError).
  - reflexivity.
  - reflexivity.
  - vm_compute. reflexivity.
  - reflexivity.
Defined.

Lemma order_id_raises fallback data w :
  transaction_order_id fallback data = None ->
  (if is_None (dict_get data "clientOrderID") then dict_getitem data fallback
   else ret (dict_get data "clientOrderID")) w
  = (Raise KeyError, w).
Proof.
  unfold transaction_order_id, dict_get. intros H.
  destruct (dict_lookup data "clientOrderID") as [v|]; cbn [is_None].
  - destruct v; cbn [is_None]; try discriminate H. now apply dict_getitem_none.
  - now apply dict_getitem_none.
Qed.

Lemma orders_getitem_stateless order_id : stateless (orders_getitem order_id).
Proof.
  intros w. destruct order_id; try reflexivity.
  unfold orders_getitem, bind, gets. now destruct (orders (gw w) !! s).
Qed.

(** A fill either goes through or raises before it has done anything. *)
Lemma on_order_filled_all_or_nothing env data w e w' :
  on_order_filled env data w = (Raise e, w') -> w' = w.
Proof.
  unfold on_order_filled. cbv zeta.
  destruct (transaction_order_id "orderID" data) as [order_id|] eqn:Hid.
  2:{ rewrite (bind_raise _ _ _ _ _ (order_id_raises _ _ _ Hid)). congruence. }
  rewrite (bind_ok _ _ _ _ _ (order_id_run _ _ _ _ Hid)).
  unfold bind at 1. pose proof (orders_getitem_stateless order_id w) as Hw.
  destruct (orders_getitem order_id w) as [[l|e0] w0]; cbn [snd] in Hw; subst w0;
    [|congruence].
  destruct (dict_lookup data "price") as [p|] eqn:Hp.
  2:{ rewrite (bind_raise _ _ _ _ _ (dict_getitem_none _ _ _ Hp)). congruence. }
  rewrite (bind_ok _ _ _ _ _ (dict_getitem_some _ _ _ _ Hp)).
  destruct (py_float env p) as [f|e0].
  2:{ rewrite (bind_lift_raise _ _ e0 _ eq_refl). congruence. }
  rewrite (bind_lift_ok _ _ f _ eq_refl).
  unfold order_getattr, order_setattr. rewrite !bind_gets, time_of_bind.
  destruct (time_of env data) as [t|e0] eqn:Ht; [|congruence].
  rewrite bind_emit, bind_gets, !bind_modify, time_of_bind, Ht.
  rewrite bind_modify, emit_run. discriminate.
Qed.

(** X3: a fill is all or nothing.  When the handler of an ORDER_FILL
    raises (unknown order, missing or malformed price or time), it has
    changed no order, told the host nothing and refreshed no entry: the
    state is the one before the message. *)
Theorem on_transaction_order_fill_all_or_nothing
    (env : Env) (data : dict) (now : datetime) (w w' : world) (e : exc) :
  dict_lookup data "type" = Some (PStr "ORDER_FILL") ->
  on_transaction env data now w = (Raise e, w') ->
  w' = w.
Proof.
  intros Htype. rewrite (on_transaction_dispatch _ _ _ _ _ the_on_order_filled Htype eq_refl).
  cbn [call_transaction_callback]. unfold bind.
  destruct (on_order_filled env data w) as [[[]|e0] w0] eqn:Hrun.
  - discriminate.
  - intros H. injection H as _ <-. exact (on_order_filled_all_or_nothing _ _ _ _ _ Hrun).
Qed.

(** The theorem of X3 on a fill for an order the store does not hold. *)
Lemma on_transaction_order_fill_all_or_nothing_witness :
  snd (on_transaction example_env unknown_fill (timedelta_seconds 5) example_world)
  = example_world.
Proof.
  apply (on_transaction_order_fill_all_or_nothing example_env unknown_fill
           (timedelta_seconds 5) example_world _ KeyError).
  - reflexivity.
  - vm_compute. reflexivity.
Defined.

(** X4: a cancel reads the fields clientOrderID, id and time of its
    message and nothing else; the field orderID, which a fill falls back
    to, plays no part in it. *)
Theorem on_order_canceled_reads_three_fields
    (env : Env) (data data' : dict) (w : world) :
  dict_lookup data "clientOrderID" = dict_lookup data' "clientOrderID" ->
  dict_lookup data "id" = dict_lookup data' "id" ->
  dict_lookup data "time" = dict_lookup data' "time" ->
  on_order_canceled env data w = on_order_canceled env data' w.
Proof.
  intros Hc Hi Ht. unfold on_order_canceled, dict_get, dict_getitem.
  now rewrite Hc, Hi, Ht.
Qed.

(** The theorem of X4 on two cancels that differ in orderID. *)
Lemma on_order_canceled_reads_three_fields_witness :
  on_order_canceled example_env cancel_abc example_world
  = on_order_canceled example_env
      [("type", PStr "ORDER_CANCEL"); ("clientOrderID", PStr "abc"); ("id", PStr "6360");
       ("orderID", PStr "0"); ("time", PStr "2019-06-21T08:32:27.000000000Z")]%string
      example_world.
Proof.
  apply (on_order_canceled_reads_three_fields example_env cancel_abc); reflexivity.
Defined.

(** ** Order acknowledgements *)

(** X5: MARKET_ORDER, LIMIT_ORDER and STOP_ORDER are handled alike: the
    gateway parses the message with status NOTTRADED and the time under the
    key time; when it returns an order, that order goes to the host and the
    account's entry is refreshed; when it raises, the exception goes to the
    caller, nothing reaches the host and the entry stays. *)
Theorem on_transaction_order_acknowledged
    (env : Env) (data : dict) (now : datetime) (w : world) (type_ : string) :
  dict_lookup data "type" = Some (PStr type_) ->
  type_ = "MARKET_ORDER" \/ type_ = "LIMIT_ORDER" \/ type_ = "STOP_ORDER" ->
  on_transaction env data now w
  = match parse_order_data env data NOTTRADED "time" (gw w) with
    | (Ok order, g) =>
        (Ok tt,
         set_trans_latest_stream_time
           (<[account_id env := now]> (trans_latest_stream_time w))
           (set_trace (trace w ++ [gateway_on_order order]) (set_gw g w)))
    | (Raise e, g) => (Raise e, set_gw g w)
    end.
Proof.
  intros Htype Hkind.
  assert (Hcb : table_lookup _transaction_callbacks type_ = Some the_on_order)
    by (destruct Hkind as [-> | [-> | ->]]; reflexivity).
  rewrite (on_transaction_dispatch _ _ _ _ _ the_on_order Htype Hcb).
  cbn [call_transaction_callback]. unfold on_order, bind.
  destruct (parse_order_data env data NOTTRADED "time" (gw w)) as [[order|e] g];
    reflexivity.
Qed.

(** The theorem of X5 on a market order, with a gateway that does not know
    the instrument. *)
Lemma on_transaction_order_acknowledged_witness :
  on_transaction example_env market_order (timedelta_seconds 8) example_world
  = (Raise KeyError, set_gw (gw example_world) example_world).
Proof.
  exact (on_transaction_order_acknowledged example_env market_order (timedelta_seconds 8)
           example_world "MARKET_ORDER" eq_refl (or_introl eq_refl)).
Defined.

(** ** The account's entry and the order store under any transaction *)

Lemma bind_ret {A B} (a : A) (k : A -> M B) w : bind (ret a) k w = k a w.
Proof. reflexivity. Qed.

Lemma bind_raise_now {A B} (e : exc) (k : A -> M B) w :
  bind (raise e) k w = (Raise e, w).
Proof. reflexivity. Qed.

Lemma bind_then_setitem env (c : M unit) now w :
  keeps_ledgers c ->
  let r := bind c (fun _ => trans_latest_stream_time_setitem env now) w in
  latest_stream_time (snd r) = latest_stream_time w
  /\ trans_latest_stream_time (snd r)
     = (if is_raise (fst r) then trans_latest_stream_time w
        else <[account_id env := now]> (trans_latest_stream_time w)).
Proof.
  intros Hc. cbv zeta. unfold bind. destruct (Hc w) as [H1 H2].
  destruct (c w) as [[[]|e] w1]; cbn [snd fst is_raise] in *.
  - unfold trans_latest_stream_time_setitem, modify.
    cbn [snd fst is_raise latest_stream_time trans_latest_stream_time
         set_trans_latest_stream_time].
    now rewrite H1, H2.
  - now split.
Qed.

(** X6: whatever the message, [on_transaction] leaves the price entries
    alone and refreshes the account's entry exactly when it returns
    normally; a message whose handling raises does not count as a sign of
    life. *)
Theorem on_transaction_refreshes_iff_it_returns
    (env : Env) (data : dict) (now : datetime) (w : world) :
  let r := on_transaction env data now w in
  latest_stream_time (snd r) = latest_stream_time w
  /\ trans_latest_stream_time (snd r)
     = (if is_raise (fst r) then trans_latest_stream_time w
        else <[account_id env := now]> (trans_latest_stream_time w)).
Proof.
  cbv zeta. unfold on_transaction.
  destruct (dict_lookup data "type") as [type_|] eqn:Htype.
  2:{ rewrite (bind_raise _ _ _ _ _ (dict_getitem_none _ _ _ Htype)). now split. }
  rewrite (bind_ok _ _ _ _ _ (dict_getitem_some _ _ _ _ Htype)).
  assert (Hnone : keeps_ledgers
            (if negb (eq_str type_ "HEARTBEAT") then emit (print type_) else ret tt))
    by (destruct (negb _); auto with ledgers).
  destruct type_; unfold _transaction_callbacks_get;
    first [ rewrite bind_ret; apply (bind_then_setitem env)
          | rewrite bind_raise_now; now split ];
    try exact Hnone.
  destruct (table_lookup _transaction_callbacks s) as [cb|];
    [apply keeps_ledgers_callback|exact Hnone].
Qed.

Lemma same_contract_refl o : same_contract o o.
Proof. now repeat split. Qed.

Lemma keeps_orders_bind {A B} (c : M A) (k : A -> M B) :
  keeps_orders c -> (forall a, keeps_orders (k a)) -> keeps_orders (bind c k).
Proof.
  intros Hc Hk w. unfold bind. specialize (Hc w).
  destruct (c w) as [[a|e] w1]; cbn [snd] in *; [|exact Hc].
  destruct Hc as [Ho Hh]. destruct (Hk a w1) as [Ho' Hh']. split; [congruence|].
  intros l. destruct (Hh l) as (H1 & H2 & H3). destruct (Hh' l) as (H4 & H5 & H6).
  repeat split; congruence.
Qed.

Lemma keeps_orders_stateless {A} (c : M A) : stateless c -> keeps_orders c.
Proof.
  intros H w. specialize (H w). destruct (c w) as [r w1]. cbn [snd] in *. subst w1.
  split; [reflexivity|]. intros l. apply same_contract_refl.
Qed.

Lemma keeps_orders_emit e : keeps_orders (emit e).
Proof. intros w. split; [reflexivity|]. intros l. apply same_contract_refl. Qed.

Lemma keeps_orders_gets {A} (f : world -> A) : keeps_orders (gets f).
Proof. intros w. split; [reflexivity|]. intros l. apply same_contract_refl. Qed.

Lemma keeps_orders_setattr order f :
  (forall o, same_contract o (f o)) -> keeps_orders (order_setattr order f).
Proof.
  intros Hf w. split; [reflexivity|]. intros l.
  unfold order_setattr, modify. cbn [snd gw set_gw heap].
  destruct (Pos.eqb l order); [apply Hf|apply same_contract_refl].
Qed.

Lemma keeps_orders_order_id data fallback :
  keeps_orders (if is_None (dict_get data "clientOrderID") then dict_getitem data fallback
                else ret (dict_get data "clientOrderID")).
Proof.
  apply keeps_orders_stateless. destruct (is_None _).
  - apply stateless_dict_getitem.
  - now intros w.
Qed.

Create HintDb orders.

#[local] Hint Resolve keeps_orders_emit keeps_orders_gets keeps_orders_order_id : orders.

#[local] Hint Extern 1 (keeps_orders (dict_getitem _ _)) =>
  apply keeps_orders_stateless, stateless_dict_getitem : orders.

#[local] Hint Extern 1 (keeps_orders (lift _)) =>
  apply keeps_orders_stateless, stateless_lift : orders.

#[local] Hint Extern 1 (keeps_orders (orders_getitem _)) =>
  apply keeps_orders_stateless, orders_getitem_stateless : orders.

#[local] Hint Extern 1 (keeps_orders (order_getattr _ _)) =>
  apply keeps_orders_gets : orders.

#[local] Hint Extern 1 (keeps_orders (order_setattr _ _)) =>
  apply keeps_orders_setattr; intros ?; now repeat split : orders.

Ltac orders_step := apply keeps_orders_bind; [auto with orders | intros ?].

(** X7: neither a fill nor a cancel binds an id anew or drops one, and
    neither changes the symbol, the direction or the volume of any order,
    whether it goes through or raises. *)
Theorem fill_and_cancel_keep_the_orders (env : Env) (data : dict) :
  keeps_orders (on_order_filled env data) /\ keeps_orders (on_order_canceled env data).
Proof.
  split.
  - unfold on_order_filled. cbv zeta. do 16 orders_step. auto with orders.
  - unfold on_order_canceled. cbv zeta. do 6 orders_step. auto with orders.
Qed.

(** ** Subscriptions, connections and errors *)

Lemma on_streaming_error_run env f ty e w :
  on_streaming_error env f ty e w
  = (Ok tt,
     set_trace
       (trace w
        ++ [write_log "ERRRRRROOOOOORRRRR"]
        ++ (if known e then [write_log "Know ERR"] else [])
        ++ call_effects env f
        ++ (if known e then [] else [write_log "UNKnow ERR"; super_on_error ty e]))
       w).
Proof.
  unfold on_streaming_error.
  rewrite (bind_ok _ _ _ _ _ (emit_run _ _)).
  rewrite (bind_ok _ _ _ _ _ (known_loop_run _ _ _)).
  fold (known e). destruct (known e).
  - rewrite call_run. cbn [trace set_trace].
    rewrite app_nil_r, <- !app_assoc. reflexivity.
  - rewrite (bind_ok _ _ _ _ _ (call_run _ _ _)).
    rewrite (bind_ok _ _ _ _ _ (emit_run _ _)). rewrite emit_run.
    cbn [trace set_trace]. rewrite <- !app_assoc. reflexivity.
Qed.

Lemma error_callable_subscribe env req :
  error_callable (subscribe_request env req) = partial_subscribe req.
Proof. unfold error_callable. cbn. now rewrite copy_id. Qed.

(** X8: the error callback a subscription installs re-issues that very
    subscription.  When the error callback of a price request fires, with
    any error, the one request it opens is equal to the request that
    installed it, callbacks included; the same holds for the transaction
    request. *)
Theorem error_callback_reopens_the_same_request
    (env : Env) (req : SubscribeRequest) (exception_type : string)
    (exception_value : exn) (w : world) :
  requests_opened
    (trace (snd (on_streaming_error env (error_callable (subscribe_request env req))
                   exception_type exception_value w)))
  = requests_opened (trace w) ++ [subscribe_request env req]
  /\ requests_opened
       (trace (snd (on_streaming_error env (error_callable (transaction_request env))
                      exception_type exception_value w)))
     = requests_opened (trace w) ++ [transaction_request env].
Proof.
  rewrite error_callable_subscribe. unfold error_callable at 1.
  cbn [request_on_error transaction_request].
  rewrite !on_streaming_error_run. cbn [snd trace set_trace].
  rewrite !requests_opened_app, !requests_opened_call.
  split; destruct (known exception_value); cbn [requests_opened app request_of];
    reflexivity.
Qed.

Lemma _start_connection_checker_again env f req now w :
  already_init_check w = true ->
  _start_connection_checker env f req now w = (Ok tt, w).
Proof.
  intros H. unfold _start_connection_checker. rewrite bind_gets, H. reflexivity.
Qed.

Lemma _start_connection_checker_first env f req now w :
  already_init_check w = false ->
  _start_connection_checker env f req now w
  = (Ok tt,
     set_trace
       (trace w
        ++ [write_log "stream connection checker start in sub"; thread_start f req]
        ++ (if bool_decide (is_Some (trans_latest_stream_time w !! account_id env))
            then []
            else call_effects env partial_subscribe_transaction))
       (set_latest_stream_time (<[req_symbol req := now]> (latest_stream_time w))
          (set_after_subscribe true (set_already_init_check true w)))).
Proof.
  intros H. unfold _start_connection_checker. rewrite bind_gets, H. cbn [negb].
  rewrite bind_emit, !bind_modify.
  unfold latest_stream_time_setitem. rewrite bind_modify, bind_emit, bind_gets.
  cbn [trans_latest_stream_time set_trans_latest_stream_time set_trace
       set_latest_stream_time set_after_subscribe set_already_init_check
       latest_stream_time trace].
  destruct (bool_decide _).
  - unfold ret. rewrite app_nil_r, <- app_assoc. reflexivity.
  - rewrite subscribe_transaction_run. cbn [trace set_trace].
    rewrite <- !app_assoc. reflexivity.
Qed.

Lemma connect_all_again env cs : forall w,
  already_init_check w = true -> connect_all env cs w = w.
Proof.
  induction cs as [|[[f req] now] cs IH]; intros w H; [reflexivity|].
  cbn [connect_all]. rewrite (_start_connection_checker_again _ _ _ _ _ H).
  now apply IH.
Qed.

Lemma threads_started_app t1 t2 :
  threads_started (t1 ++ t2) = threads_started t1 ++ threads_started t2.
Proof.
  induction t1 as [|e t1 IH]; [reflexivity|].
  destruct e; cbn [threads_started app]; now rewrite ?IH.
Qed.

(** X9: however many price streams connect, and in whatever order, only
    the first connection does anything: it starts the one watchdog thread,
    for its own subscription; every later connection leaves the state as it
    is, so it starts no thread and makes no entry in the Liveness Ledger for
    its symbol. *)
Theorem only_the_first_connection_counts
    (env : Env) (f : callable) (req : SubscribeRequest) (now : datetime)
    (cs : list (callable * SubscribeRequest * datetime)) (w : world) :
  already_init_check w = false ->
  connect_all env ((f, req, now) :: cs) w
    = snd (_start_connection_checker env f req now w)
  /\ threads_started (trace (connect_all env ((f, req, now) :: cs) w))
     = threads_started (trace w) ++ [(f, req)].
Proof.
  intros H. cbn [connect_all].
  rewrite (_start_connection_checker_first _ _ _ _ _ H). cbn [snd].
  rewrite connect_all_again by reflexivity. split; [reflexivity|].
  cbn [trace set_trace]. rewrite !threads_started_app. cbn [threads_started].
  destruct (bool_decide _); cbn [threads_started call_effects app];
    now rewrite ?app_nil_r.
Qed.

(** The theorem of X9 on the connections of EUR_USD and then USD_JPY. *)
Lemma only_the_first_connection_counts_witness :
  connect_all example_env
    [(partial_subscribe eur_usd, eur_usd, 0);
     (partial_subscribe usd_jpy, usd_jpy, timedelta_seconds 1)] example_world
    = snd (_start_connection_checker example_env (partial_subscribe eur_usd) eur_usd 0
             example_world)
  /\ threads_started
       (trace (connect_all example_env
                 [(partial_subscribe eur_usd, eur_usd, 0);
                  (partial_subscribe usd_jpy, usd_jpy, timedelta_seconds 1)]
                 example_world))
     = threads_started (trace example_world) ++ [(partial_subscribe eur_usd, eur_usd)].
Proof.
  exact (only_the_first_connection_counts example_env (partial_subscribe eur_usd) eur_usd 0
           [(partial_subscribe usd_jpy, usd_jpy, timedelta_seconds 1)] example_world
           eq_refl).
Defined.

(** X10: when the transaction stream has connected before the first price
    stream does, the first price connection does not subscribe the
    transaction stream a second time: it opens no request at all. *)
Theorem first_connection_after_transaction_stream
    (env : Env) (f : callable) (req : SubscribeRequest) (t now : datetime) (w : world) :
  already_init_check w = false ->
  requests_opened
    (trace (snd (_start_connection_checker env f req now
                   (snd (on_subscribed_transaction env t w)))))
  = requests_opened (trace w).
Proof.
  intros H. unfold on_subscribed_transaction, trans_latest_stream_time_setitem.
  rewrite bind_modify. unfold modify. cbn [snd].
  rewrite _start_connection_checker_first by exact H.
  cbn [snd trace set_trace trans_latest_stream_time set_trans_latest_stream_time
       set_fully_initialized].
  rewrite lookup_insert_eq, bool_decide_eq_true_2 by (now eexists).
  rewrite !requests_opened_app. cbn [requests_opened]. now rewrite !app_nil_r.
Qed.

(** The theorem of X10 on the first state. *)
Lemma first_connection_after_transaction_stream_witness :
  requests_opened
    (trace (snd (_start_connection_checker example_env (partial_subscribe eur_usd) eur_usd
                   (timedelta_seconds 1)
                   (snd (on_subscribed_transaction example_env 0 example_world)))))
  = requests_opened (trace example_world).
Proof.
  exact (first_connection_after_transaction_stream example_env (partial_subscribe eur_usd)
           eur_usd 0 (timedelta_seconds 1) example_world eq_refl).
Defined.

(** ** The watchdog over many turns *)

Lemma checker_cycle_run env req c w :
  checker_cycle env (partial_subscribe req) req c w = (Ok tt, after_cycle env req c w).
Proof.
  unfold checker_cycle, after_cycle. cbv zeta.
  rewrite (bind_ok _ _ _ _ _ (check_price_stream_run _ _ _ _)).
  rewrite (bind_ok _ _ _ _ _ (sleep_1_run _ _)).
  cbn [trace set_trace]. rewrite <- app_assoc, set_trace_twice.
  apply check_transaction_stream_run.
Qed.

Lemma count_if_app p t1 t2 :
  count_if p (t1 ++ t2) = (count_if p t1 + count_if p t2)%nat.
Proof.
  induction t1 as [|e t1 IH]; [reflexivity|]. cbn [count_if app]. rewrite IH. lia.
Qed.

Lemma count_price_requests_transaction_rebuild env symbol c w :
  count_if (is_price_request symbol) (transaction_rebuild env c w) = O.
Proof. unfold transaction_rebuild. cbv zeta. now destruct (_ <? _). Qed.

Lemma count_sleeps_rebuilds env req c w w' :
  count_if is_sleep (price_rebuild env req c w) = O
  /\ count_if is_sleep (transaction_rebuild env c w') = O.
Proof.
  unfold price_rebuild, transaction_rebuild. cbv zeta.
  split; now destruct (_ <? _).
Qed.

(** X11: the watchdog does not refresh the entry it finds stale.  While no
    message arrives on a price stream whose entry is more than ten seconds
    old, every turn of the loop subscribes that stream again: [n] turns open
    [n] requests for the symbol. *)
Theorem silent_stream_is_rebuilt_every_turn
    (env : Env) (req : SubscribeRequest) (t : datetime) (cs : list cycle_env) (w : world) :
  latest_stream_time w !! req_symbol req = Some t ->
  Forall (fun c => (forall w0, during_sleep c w0 = w0)
                   /\ timedelta_seconds 10 < now_130 c - t) cs ->
  count_if (is_price_request (req_symbol req))
    (trace (snd (checker_loop env (partial_subscribe req) req cs w)))
  = (count_if (is_price_request (req_symbol req)) (trace w) + length cs)%nat.
Proof.
  intros Hentry Hcs. revert w Hentry.
  induction Hcs as [|c cs [Hquiet Hstale] _ IH]; intros w Hentry.
  - cbn. lia.
  - cbn [checker_loop]. rewrite (bind_ok _ _ _ _ _ (checker_cycle_run _ _ _ _)).
    assert (Hw : after_cycle env req c w
                 = set_trace (trace w
                              ++ (price_rebuild env req c w ++ [time_sleep 1])
                              ++ transaction_rebuild env c
                                   (set_trace (trace w ++ price_rebuild env req c w
                                               ++ [time_sleep 1]) w)) w).
    { unfold after_cycle. cbv zeta. rewrite Hquiet. cbn [trace set_trace].
      now rewrite <- !app_assoc. }
    rewrite Hw, IH by (cbn [latest_stream_time set_trace]; exact Hentry).
    cbn [trace set_trace length].
    rewrite !count_if_app, count_price_requests_transaction_rebuild.
    unfold price_rebuild. cbv zeta. rewrite Hentry. cbn [from_option id].
    apply Z.ltb_lt in Hstale. rewrite Hstale.
    cbn [count_if is_price_request is_sleep request_callback subscribe_request].
    rewrite String.eqb_refl. lia.
Qed.

(** The theorem of X11 on the stale USD_JPY of the two streams, had the
    watchdog been given that subscription. *)
Lemma silent_stream_is_rebuilt_every_turn_witness :
  count_if (is_price_request "USD_JPY")
    (trace (snd (checker_loop example_env (partial_subscribe usd_jpy) usd_jpy
                   [turn_at_60; turn_at_61] two_streams)))
  = (count_if (is_price_request "USD_JPY") (trace two_streams) + 2)%nat.
Proof.
  apply (silent_stream_is_rebuilt_every_turn example_env usd_jpy (timedelta_seconds 1)
           [turn_at_60; turn_at_61] two_streams).
  - vm_compute. reflexivity.
  - repeat constructor.
Defined.

(** X12: the loop returns from every turn and sleeps once, for one second,
    in each: [n] turns make [n] sleeps, whatever is rebuilt in them. *)
Theorem checker_loop_sleeps_once_a_turn
    (env : Env) (req : SubscribeRequest) (cs : list cycle_env) (w : world) :
  Forall (fun c => forall w0, trace (during_sleep c w0) = trace w0) cs ->
  fst (checker_loop env (partial_subscribe req) req cs w) = Ok tt
  /\ count_if is_sleep (trace (snd (checker_loop env (partial_subscribe req) req cs w)))
     = (count_if is_sleep (trace w) + length cs)%nat.
Proof.
  intros Hcs. revert w. induction Hcs as [|c cs Hquiet _ IH]; intros w.
  - cbn. split; [reflexivity|lia].
  - cbn [checker_loop]. rewrite (bind_ok _ _ _ _ _ (checker_cycle_run _ _ _ _)).
    destruct (IH (after_cycle env req c w)) as [Hok Hcount].
    split; [exact Hok|]. rewrite Hcount. unfold after_cycle. cbv zeta.
    cbn [trace set_trace length]. rewrite count_if_app, Hquiet.
    cbn [trace set_trace]. rewrite !count_if_app.
    destruct (count_sleeps_rebuilds env req c w
                (during_sleep c
                   (set_trace (trace w ++ price_rebuild env req c w ++ [time_sleep 1]) w)))
      as [-> ->].
    cbn [count_if is_sleep]. lia.
Qed.

(** The theorem of X12 on two turns. *)
Lemma checker_loop_sleeps_once_a_turn_witness :
  fst (checker_loop example_env (partial_subscribe eur_usd) eur_usd
         [turn_at_60; turn_at_61] two_streams) = Ok tt
  /\ count_if is_sleep
       (trace (snd (checker_loop example_env (partial_subscribe eur_usd) eur_usd
                      [turn_at_60; turn_at_61] two_streams)))
     = (count_if is_sleep (trace two_streams) + 2)%nat.
Proof.
  apply (checker_loop_sleeps_once_a_turn example_env eur_usd [turn_at_60; turn_at_61]
           two_streams).
  repeat constructor.
Defined.

(** X13: a message of the price stream that is no PRICE message keeps the
    watchdog quiet: a turn whose reading of line 130 is at most ten seconds
    after the message does not rebuild the stream. *)
Theorem heartbeat_keeps_the_price_stream
    (env : Env) (req : SubscribeRequest) (data : dict) (type_ : pyval)
    (now : datetime) (c : cycle_env) (w : world) :
  dict_lookup data "type" = Some type_ ->
  eq_str type_ "PRICE" = false ->
  now_130 c - now <= timedelta_seconds 10 ->
  let w' := snd (on_price env (req_symbol req) data now w) in
  check_price_stream env (partial_subscribe req) req c w' = (Ok tt, w').
Proof.
  intros Htype Hne Hfresh. cbv zeta.
  rewrite (on_price_other_type _ _ _ _ _ _ Htype Hne). cbn [snd].
  rewrite check_price_stream_run. unfold price_rebuild. cbv zeta.
  cbn [latest_stream_time set_latest_stream_time]. rewrite lookup_insert_eq.
  cbn [from_option id]. apply Z.ltb_ge in Hfresh. rewrite Hfresh.
  now rewrite app_nil_r, set_trace_trace.
Qed.

(** The theorem of X13 on a heartbeat at second 59 and the turn at second
    60. *)
Lemma heartbeat_keeps_the_price_stream_witness :
  let w' := snd (on_price example_env (req_symbol usd_jpy) heartbeat (timedelta_seconds 59)
                   two_streams) in
  check_price_stream example_env (partial_subscribe usd_jpy) usd_jpy turn_at_60 w'
  = (Ok tt, w').
Proof.
  apply (heartbeat_keeps_the_price_stream example_env usd_jpy heartbeat (PStr "HEARTBEAT")
           (timedelta_seconds 59) turn_at_60 two_streams).
  - reflexivity.
  - reflexivity.
  - vm_compute. discriminate.
Defined.

Lemma deliver_all_PRICE env ms : forall w,
  Forall is_PRICE ms -> deliver_all env ms w = w.
Proof.
  induction ms as [|[m now] ms IH]; intros w Hms; [reflexivity|].
  inversion Hms as [|x xs Hm Hrest]; subst. cbn [deliver_all].
  destruct m as [symbol data|data]; [|destruct Hm].
  cbn [deliver]. destruct (on_price_PRICE_run env symbol data now w Hm) as [e He].
  rewrite He. cbn [snd]. now apply IH.
Qed.

(** X14: PRICE messages are no sign of life.  A price stream that delivers
    nothing but PRICE messages leaves the state as it was, so once its entry
    is more than ten seconds old the watchdog rebuilds it although prices
    keep arriving. *)
Theorem prices_alone_do_not_keep_the_stream
    (env : Env) (req : SubscribeRequest) (ms : list (message * datetime))
    (t : datetime) (c : cycle_env) (w : world) :
  Forall is_PRICE ms ->
  latest_stream_time w !! req_symbol req = Some t ->
  timedelta_seconds 10 < now_130 c - t ->
  deliver_all env ms w = w
  /\ requests_opened
       (trace (snd (check_price_stream env (partial_subscribe req) req c
                      (deliver_all env ms w))))
     = requests_opened (trace w) ++ [subscribe_request env req].
Proof.
  intros Hms Hentry Hstale. rewrite (deliver_all_PRICE env ms w Hms).
  split; [reflexivity|].
  rewrite check_price_stream_run. cbn [snd trace set_trace].
  unfold price_rebuild. cbv zeta. rewrite Hentry. cbn [from_option id].
  apply Z.ltb_lt in Hstale. rewrite Hstale.
  rewrite requests_opened_app. reflexivity.
Qed.

(** The theorem of X14 on two prices of EUR_USD at seconds 70 and 71,
    after the heartbeat of second 59, and a turn at second 72. *)
Lemma prices_alone_do_not_keep_the_stream_witness :
  let ms := [(price_stream_message "EUR_USD" p2_message, timedelta_seconds 70);
             (price_stream_message "EUR_USD" p7_message, timedelta_seconds 71)] in
  let c := {| now_130 := timedelta_seconds 72; now_132 := timedelta_seconds 72;
              now_143 := timedelta_seconds 73; during_sleep := fun w => w |} in
  deliver_all example_env ms two_streams = two_streams
  /\ requests_opened
       (trace (snd (check_price_stream example_env (partial_subscribe eur_usd) eur_usd c
                      (deliver_all example_env ms two_streams))))
     = requests_opened (trace two_streams) ++ [subscribe_request example_env eur_usd].
Proof.
  apply (prices_alone_do_not_keep_the_stream example_env eur_usd _ (timedelta_seconds 59)).
  - repeat constructor.
  - vm_compute. reflexivity.
  - vm_compute. reflexivity.
Defined.

(** ** Wrapped errors *)

Lemma known_iff_chain e :
  known e = true <->
  exists kind e', In kind known_error_types /\ in_cause_chain e' e
                  /\ isinstance e' kind = true.
Proof.
  unfold known. rewrite existsb_exists. split.
  - intros (kind & Hkind & Herr). apply has_error_chain in Herr as (e' & Hc & Hi).
    now exists kind, e'.
  - intros (kind & e' & Hkind & Hc & Hi). exists kind. split; [exact Hkind|].
    apply has_error_chain. now exists e'.
Qed.

(** X15: wrapping keeps an error known.  An exception that has a known
    error among its arguments is known itself, whatever its own class, as
    long as the wrapped error is an instance of [Exception]. *)
Theorem wrapping_keeps_an_error_known
    (e : exn) (mro : list string) (args : list arg) :
  known e = true ->
  isinstance e "Exception" = true ->
  In (ArgExn e) args ->
  known (Exn mro args) = true.
Proof.
  intros Hknown Hexc Hin. apply known_iff_chain in Hknown as (kind & e' & Hkind & Hc & Hi).
  apply known_iff_chain. exists kind, e'. split; [exact Hkind|]. split; [|exact Hi].
  now apply chain_arg with (a := e).
Qed.

(** The theorem of X15 on the remote disconnect, wrapped once more. *)
Lemma wrapping_keeps_an_error_known_witness :
  known (Exn ["RuntimeError"; "Exception"; "BaseException"; "object"]%string
           [ArgVal (PStr "stream failed"); ArgExn remote_disconnect]) = true.
Proof.
  apply (wrapping_keeps_an_error_known remote_disconnect).
  - reflexivity.
  - reflexivity.
  - right. left. reflexivity.
Defined.

(** ** A message delivered twice, and the price handler as a whole *)

(** X16: the fill handler does not recognise a fill it has seen.  When the
    same ORDER_FILL is delivered twice (as two overlapping sessions of the
    transaction stream would), the host receives the same trade twice, and
    the order is after the second delivery as it was after the first. *)
Theorem fill_delivered_twice_trades_twice
    (env : Env) (data : dict) (now now' : datetime) (w : world)
    (id : string) (l : loc) (p : pyval) (f : float) (tv t : pyval) :
  dict_lookup data "type" = Some (PStr "ORDER_FILL") ->
  transaction_order_id "orderID" data = Some (PStr id) ->
  orders (gw w) !! id = Some l ->
  dict_lookup data "price" = Some p -> py_float env p = Ok f ->
  dict_lookup data "time" = Some tv -> parse_time env tv = Ok t ->
  exists w1 w2,
    on_transaction env data now w = (Ok tt, w1)
    /\ on_transaction env data now' w1 = (Ok tt, w2)
    /\ trace w2 = trace w
         ++ [gateway_on_trade (fill_trade env (PStr id) (heap (gw w) l) f t);
             gateway_on_order l;
             gateway_on_trade (fill_trade env (PStr id) (heap (gw w) l) f t);
             gateway_on_order l]
    /\ heap (gw w2) l = heap (gw w1) l.
Proof.
  intros Htype Hid Hfound Hp Hf Htv Ht.
  destruct (on_order_filled_run env data w id l p f tv t Hid Hfound Hp Hf Htv Ht)
    as (w1 & Hrun1 & Htrace1 & Hheap1 & _ & Horders1 & _).
  set (w1' := set_trans_latest_stream_time
                (<[account_id env := now]> (trans_latest_stream_time w1)) w1).
  assert (Hfound1 : orders (gw w1') !! id = Some l) by (cbn; now rewrite Horders1).
  destruct (on_order_filled_run env data w1' id l p f tv t Hid Hfound1 Hp Hf Htv Ht)
    as (w2 & Hrun2 & Htrace2 & Hheap2 & _).
  exists w1'. eexists.
  rewrite !(on_transaction_dispatch _ _ _ _ _ the_on_order_filled Htype eq_refl).
  cbn [call_transaction_callback].
  split; [now rewrite (bind_ok _ _ _ _ _ Hrun1)|].
  split; [now rewrite (bind_ok _ _ _ _ _ Hrun2)|].
  cbn [trace set_trans_latest_stream_time gw]. split.
  - rewrite Htrace2. subst w1'. cbn [trace set_trans_latest_stream_time gw].
    rewrite Htrace1, Hheap1, <- app_assoc. reflexivity.
  - rewrite Hheap2. subst w1'. cbn [set_trans_latest_stream_time gw].
    rewrite Hheap1. reflexivity.
Qed.

(** The theorem of X16 on the fill of P8. *)
Lemma fill_delivered_twice_trades_twice_witness :
  exists w1 w2,
    on_transaction example_env p8_fill (timedelta_seconds 5) example_world = (Ok tt, w1)
    /\ on_transaction example_env p8_fill (timedelta_seconds 6) w1 = (Ok tt, w2)
    /\ trace w2 = trace example_world
         ++ [gateway_on_trade
               (fill_trade example_env (PStr "abc") (heap (gw example_world) 1%positive)
                  1.2345%float (PStr "2019-06-21T08:32:25.000000000Z"));
             gateway_on_order 1%positive;
             gateway_on_trade
               (fill_trade example_env (PStr "abc") (heap (gw example_world) 1%positive)
                  1.2345%float (PStr "2019-06-21T08:32:25.000000000Z"));
             gateway_on_order 1%positive]
    /\ heap (gw w2) 1%positive = heap (gw w1) 1%positive.
Proof.
  apply (fill_delivered_twice_trades_twice example_env p8_fill (timedelta_seconds 5)
           (timedelta_seconds 6) example_world "abc" 1%positive (PStr "1.2345")
           1.2345%float (PStr "2019-06-21T08:32:25.000000000Z")
           (PStr "2019-06-21T08:32:25.000000000Z")).
  - reflexivity.
  - reflexivity.
  - vm_compute. reflexivity.
  - reflexivity.
  - vm_compute. reflexivity.
  - reflexivity.
  - reflexivity.
Defined.

(** X17: the price handler as a whole.  It returns normally exactly for
    the messages that have a discriminant other than PRICE; then it sets the
    entry of the subscribed symbol to the reading of the clock and does
    nothing else.  For every other message (a PRICE message, or a message
    without discriminant) it raises and leaves the state as it was. *)
Theorem on_price_returns_iff_not_PRICE
    (env : Env) (symbol : string) (data : dict) (now : datetime) (w : world) :
  let r := on_price env symbol data now w in
  (fst r = Ok tt <->
   exists type_, dict_lookup data "type" = Some type_ /\ eq_str type_ "PRICE" = false)
  /\ snd r = (if is_raise (fst r) then w
              else set_latest_stream_time (<[symbol := now]> (latest_stream_time w)) w).
Proof.
  cbv zeta. destruct (dict_lookup data "type") as [type_|] eqn:Htype.
  - destruct (eq_str type_ "PRICE") eqn:Hprice.
    + destruct type_; try discriminate Hprice.
      pose proof Hprice as Hs. apply String.eqb_eq in Hs. subst s.
      destruct (on_price_PRICE_run env symbol data now w Htype) as [e He].
      rewrite He. cbn [fst snd is_raise]. split; [|reflexivity].
      split; [discriminate|]. intros (type_ & [= <-] & Hne). discriminate Hne.
    + rewrite (on_price_other_type _ _ _ _ _ _ Htype Hprice).
      cbn [fst snd is_raise]. split; [|reflexivity].
      split; [|reflexivity]. intros _. now exists type_.
  - unfold on_price. rewrite (bind_raise _ _ _ _ _ (dict_getitem_none _ _ _ Htype)).
    cbn [fst snd is_raise]. split; [|reflexivity].
    split; [discriminate|]. intros (type_ & Hsome & _). discriminate Hsome.
Qed.
